(** * trinity.chains: bootstrap and exception forwarding

    A shallow embedding of [trinity/chains/__init__.py]: genesis config
    validation, data-dir and chain-database initialisation, and the
    exception forwarder used by the object host.  Python functions become
    Rocq functions returning a [Result]; functions that touch the file
    system or the chain database thread their state explicitly. *)

From Stdlib Require Import ZArith List String Ascii Bool Lia.
From stdpp Require Import base option gmap strings list.

Local Open Scope string_scope.

(** ** Python values, exceptions and results *)

Module Py.

(** A class as seen by [isinstance]: its name and the names of its strict
    ancestors in the method resolution order. *)
Record PyClass : Type := mkClass {
  cls_name : string;
  cls_bases : list string
}.

Definition issubclass (c : PyClass) (name : string) : bool :=
  String.eqb (cls_name c) name || existsb (String.eqb name) (cls_bases c).

(** An exception object: [type(e)], [e.args], the instance [__dict__]
    (payload attributes) and the chaining attributes of the data model. *)
#[warnings="-register-all"]
Inductive PyException : Type := mkException {
  exc_class : PyClass;
  exc_args : list string;
  exc_dict : list (string * string);
  exc_cause : option PyException;
  exc_context : option PyException;
  exc_suppress_context : bool
}.

Definition isinstance (e : PyException) (name : string) : bool :=
  issubclass (exc_class e) name.

(** Instantiating an exception class that has no [__init__] of its own:
    the positional arguments become [args]. *)
Definition new_exception (c : PyClass) (args : list string) : PyException :=
  {| exc_class := c; exc_args := args; exc_dict := [];
     exc_cause := None; exc_context := None; exc_suppress_context := false |}.

Definition Exception_bases : list string := ["Exception"; "BaseException"].

Definition ValidationError : PyClass := mkClass "ValidationError" Exception_bases.
Definition NameError : PyClass := mkClass "NameError" Exception_bases.
Definition TypeError : PyClass := mkClass "TypeError" Exception_bases.
Definition AttributeError : PyClass := mkClass "AttributeError" Exception_bases.
Definition KeyError : PyClass := mkClass "KeyError" ("LookupError" :: Exception_bases).
Definition OSError_bases : list string := "OSError" :: Exception_bases.
Definition FileNotFoundError : PyClass := mkClass "FileNotFoundError" OSError_bases.
Definition FileExistsError : PyClass := mkClass "FileExistsError" OSError_bases.
Definition NotADirectoryError : PyClass := mkClass "NotADirectoryError" OSError_bases.
Definition IsADirectoryError : PyClass := mkClass "IsADirectoryError" OSError_bases.
Definition MissingPath : PyClass := mkClass "MissingPath" Exception_bases.
Definition CanonicalHeadNotFound : PyClass :=
  mkClass "CanonicalHeadNotFound" ("PyEVMError" :: Exception_bases).

(** The outcome of evaluating an expression or a call. *)
Inductive Result (A : Type) : Type :=
| Return (a : A)
| Raise (e : PyException).
Arguments Return {A} a.
Arguments Raise {A} e.

Definition bind {A B : Type} (r : Result A) (k : A -> Result B) : Result B :=
  match r with
  | Return a => k a
  | Raise e => Raise e
  end.

(** The names bound in the module's global namespace once it is imported:
    every name its [import] statements bind (lines 3-63; [import
    eth.constants] binds [eth], and [from .header import ...] also binds the
    submodule [header]) and every top-level [def] and [class]. *)
Definition module_globals : list string :=
  [ "BaseManager"; "BaseProxy"; "inspect"; "json"; "os"; "traceback";
    "TracebackType"; "Any"; "Callable"; "List"; "Type";
    "MainnetChain"; "RopstenChain"; "eth"; "Chain"; "BaseChain";
    "MAINNET_GENESIS_HEADER"; "MAINNET_NETWORK_ID";
    "ROPSTEN_GENESIS_HEADER"; "ROPSTEN_NETWORK_ID";
    "BaseDB"; "CanonicalHeadNotFound"; "BlockHeader";
    "decode_hex"; "ValidationError"; "ecies";
    "ChainConfig"; "DBProxy"; "AsyncChainDB"; "ChainDBProxy";
    "AsyncHeaderDB"; "AsyncHeaderDBProxy"; "async_method"; "sync_method";
    "is_under_xdg_trinity_root"; "header"; "AsyncHeaderChain";
    "AsyncHeaderChainProxy";
    "is_valid_genesis_header"; "get_genesis_header";
    "is_data_dir_initialized"; "is_database_initialized";
    "initialize_data_dir"; "initialize_database";
    "TracebackRecorder"; "record_traceback_on_error";
    "BasePrivateChain"; "PrivateChain"; "RemoteTraceback";
    "ChainedExceptionWithTraceback"; "rebuild_exc";
    "get_chaindb_manager"; "ChainProxy" ].

(** Reading a global name inside a function body: a name the module never
    binds raises [NameError] when the line is reached. *)
Definition load_global (name : string) : Result unit :=
  if existsb (String.eqb name) module_globals then Return tt
  else Raise (new_exception NameError ["name '" ++ name ++ "' is not defined"]).

End Py.

Export Py.

#[export] Instance Result_ret : MRet Result := @Return.
#[export] Instance Result_bind : MBind Result := fun A B k r => bind r k.

(** ** GenesisSpec: [is_valid_genesis_header] and [get_genesis_header] *)

Module Genesis.

Definition bytes : Type := list Byte.byte.

(** Values a decoded JSON genesis config (and a header field) can hold. *)
Inductive PyValue : Type :=
| VStr (s : string)
| VInt (z : Z)
| VBytes (b : bytes).

(** [eth.rlp.headers.BlockHeader], by the keyword arguments the module
    passes to its constructor. *)
Record BlockHeader : Type := mkBlockHeader {
  difficulty : PyValue;
  extra_data : PyValue;
  gas_limit : PyValue;
  gas_used : PyValue;
  bloom : PyValue;
  mix_hash : PyValue;
  nonce : PyValue;
  block_number : PyValue;
  parent_hash : PyValue;
  receipt_root : PyValue;
  uncles_hash : PyValue;
  state_root : PyValue;
  timestamp : PyValue;
  transaction_root : PyValue
}.

Definition missing_key_message (key : string) : string :=
  "genesis config missing required '" ++ key ++ "'".

Definition missing_key (key : string) : PyException :=
  new_exception ValidationError [missing_key_message key].

(** [key not in genesis.keys()] *)
Definition not_in_keys (key : string) (genesis : gmap string PyValue) : bool :=
  bool_decide (genesis !! key = None).

Definition is_valid_genesis_header (genesis : gmap string PyValue) : Result bool :=
  if not_in_keys "chainId" genesis then Raise (missing_key "chainId")
  else if not_in_keys "difficulty" genesis then Raise (missing_key "difficulty")
  else if not_in_keys "gasLimit" genesis then Raise (missing_key "gasLimit")
  else if not_in_keys "nonce" genesis then Raise (missing_key "nonce")
  else if not_in_keys "extraData" genesis then Raise (missing_key "extraData")
  else Return true.

(** [genesis[key]] *)
Definition getitem (genesis : gmap string PyValue) (key : string) : Result PyValue :=
  match genesis !! key with
  | Some v => Return v
  | None => Raise (new_exception KeyError [key])
  end.

Section GetGenesisHeader.

(** [eth_utils.decode_hex] and the constants of [eth.constants] are not part
    of this module; they are taken as given. *)
Variable decode_hex : PyValue -> Result bytes.
Variables ZERO_HASH32 BLANK_ROOT_HASH EMPTY_UNCLE_HASH : bytes.

Definition state_root_hex : string :=
  "0xd7f8974fb5ac78d9ac099b9ad5018bedc2ce0a72dad1827a1709da30580f0544".

(** The keyword arguments are evaluated left to right, each global name
    being looked up when its argument is reached; then the second element
    of the returned tuple. *)
Definition get_genesis_header (genesis : gmap string PyValue)
  : Result (BlockHeader * bytes) :=
  load_global "BlockHeader" ;;
  difficulty_ ← getitem genesis "difficulty" ;
  extra_data_ ← getitem genesis "extraData" ;
  gas_limit_ ← getitem genesis "gasLimit" ;
  load_global "constants" ;;
  nonce_ ← getitem genesis "nonce" ;
  load_global "constants" ;;
  load_global "constants" ;;
  load_global "constants" ;;
  load_global "decode_hex" ;;
  state_root_ ← decode_hex (VStr state_root_hex) ;
  load_global "constants" ;;
  load_global "decode_hex" ;;
  chain_id_ ← getitem genesis "chainId" ;
  network_id_ ← decode_hex chain_id_ ;
  Return
    ({| difficulty := difficulty_;
        extra_data := extra_data_;
        gas_limit := gas_limit_;
        gas_used := VInt 0;
        bloom := VInt 0;
        mix_hash := VBytes ZERO_HASH32;
        nonce := nonce_;
        block_number := VInt 0;
        parent_hash := VBytes ZERO_HASH32;
        receipt_root := VBytes BLANK_ROOT_HASH;
        uncles_hash := VBytes EMPTY_UNCLE_HASH;
        state_root := VBytes state_root_;
        timestamp := VInt 0;
        transaction_root := VBytes BLANK_ROOT_HASH |},
     network_id_).

End GetGenesisHeader.

End Genesis.

(** ** NodeBootstrap: [is_data_dir_initialized] and [initialize_data_dir] *)

Module DataDir.

Import Genesis.

(** A path, by its components below the file-system root. *)
Definition Path : Type := list string.

Definition path_str (p : Path) : string := "/" ++ String.concat "/" p.

(** [path.parent] *)
Definition parent (p : Path) : Path := removelast p.

Inductive Node : Type :=
| Dir
| File (content : bytes).

(** The file system maps the paths that exist to what is there; the root
    always exists and is a directory. *)
Definition node_at (fs : gmap Path Node) (p : Path) : option Node :=
  match p with
  | [] => Some Dir
  | _ => fs !! p
  end.

(** [path.exists()] / [os.path.exists(path)] *)
Definition exists_ (fs : gmap Path Node) (p : Path) : bool :=
  match node_at fs p with
  | Some _ => true
  | None => false
  end.

(** An [OSError] of the given class, by its message ([errno] and
    [filename] are left out). *)
Definition os_error (c : PyClass) : PyException :=
  new_exception c
    [if String.eqb (cls_name c) "FileNotFoundError" then "No such file or directory"
     else if String.eqb (cls_name c) "FileExistsError" then "File exists"
     else if String.eqb (cls_name c) "NotADirectoryError" then "Not a directory"
     else "Is a directory"].

(** [path.mkdir(parents=True, exist_ok=True)] and
    [os.makedirs(path, exist_ok=True)]: every missing ancestor is created,
    outermost first; a regular file in the way is an error. *)
Fixpoint mkdir_from (prefix : Path) (rest : list string) (fs : gmap Path Node)
  : Result (gmap Path Node) :=
  match rest with
  | [] => Return fs
  | c :: rest' =>
      let here := (prefix ++ [c])%list in
      match fs !! here with
      | Some Dir => mkdir_from here rest' fs
      | Some (File _) =>
          Raise (os_error (match rest' with
                           | [] => FileExistsError
                           | _ => NotADirectoryError
                           end))
      | None => mkdir_from here rest' (<[here := Dir]> fs)
      end
  end.

Definition mkdir_parents (p : Path) (fs : gmap Path Node) : Result (gmap Path Node) :=
  mkdir_from [] p fs.

(** Creating a directory entry for a new file at [p]: the parent has to
    be an existing directory. *)
Definition check_parent (p : Path) (fs : gmap Path Node) : Result unit :=
  match node_at fs (parent p) with
  | Some Dir => Return tt
  | Some (File _) => Raise (os_error NotADirectoryError)
  | None => Raise (os_error FileNotFoundError)
  end.

(** [path.touch()]: an existing entry is kept as it is, otherwise an empty
    file is created. *)
Definition touch (p : Path) (fs : gmap Path Node) : Result (gmap Path Node) :=
  match node_at fs p with
  | Some _ => Return fs
  | None => check_parent p fs ;; Return (<[p := File []]> fs)
  end.

(** [with open(path, 'wb') as f: f.write(data)] *)
Definition write_bytes (p : Path) (data : bytes) (fs : gmap Path Node)
  : Result (gmap Path Node) :=
  match node_at fs p with
  | Some Dir => Raise (os_error IsADirectoryError)
  | Some (File _) => Return (<[p := File data]> fs)
  | None => check_parent p fs ;; Return (<[p := File data]> fs)
  end.

(** The attributes of [trinity.config.ChainConfig] that the module reads.
    [nodekey] is the value the [chain_config.nodekey] attribute yields
    ([None] when the node has no key yet); [nodekey_path] is [None] for a
    node with an explicitly defined nodekey (lines 127-129). *)
Record ChainConfig : Type := mkChainConfig {
  data_dir : Path;
  database_dir : Path;
  logdir_path : Path;
  logfile_path : Path;
  nodekey_path : option Path;
  nodekey : option bytes
}.

(** What a run can change: the file system, and how many keys have been
    drawn from the key generator. *)
Record World : Type := mkWorld {
  fs : gmap Path Node;
  keys_drawn : nat
}.

Definition IO (A : Type) : Type := World -> Result A * World.

Definition io_bind {A B : Type} (m : IO A) (k : A -> IO B) : IO B :=
  fun w =>
    match m w with
    | (Return a, w') => k a w'
    | (Raise e, w') => (Raise e, w')
    end.

Definition io_ret {A : Type} (a : A) : IO A := fun w => (Return a, w).

Definition io_raise {A : Type} (e : PyException) : IO A := fun w => (Raise e, w).

(** A file-system operation run on the world's file system; a failed
    operation leaves the file system as it was. *)
Definition on_fs (op : gmap Path Node -> Result (gmap Path Node)) : IO unit :=
  fun w =>
    match op (fs w) with
    | Return fs' => (Return tt, {| fs := fs'; keys_drawn := keys_drawn w |})
    | Raise e => (Raise e, w)
    end.

Notation "'do' x <- m ; k" := (io_bind m (fun x => k))
  (at level 10, x name, m at level 100, k at level 200).
Notation "'run' m ; k" := (io_bind m (fun _ => k))
  (at level 10, m at level 100, k at level 200).

Section InitializeDataDir.

(** [trinity.utils.xdg.is_under_xdg_trinity_root] and
    [p2p.ecies.generate_privkey] (the n-th key the generator yields, as its
    [to_bytes()]) are not part of this module. *)
Variable is_under_xdg_trinity_root : Path -> bool.
Variable generate_privkey : nat -> bytes.

Definition ecies_generate_privkey : IO bytes :=
  fun w => (Return (generate_privkey (keys_drawn w)),
            {| fs := fs w; keys_drawn := S (keys_drawn w) |}).

Definition is_data_dir_initialized (chain_config : ChainConfig) (w : World) : bool :=
  if negb (exists_ (fs w) (data_dir chain_config)) then false
  else if negb (exists_ (fs w) (database_dir chain_config)) then false
  else if negb (exists_ (fs w) (parent (logfile_path chain_config))) then false
  else if negb (exists_ (fs w) (logfile_path chain_config)) then false
  else if match nodekey_path chain_config with
          | None => false
          | Some p => negb (exists_ (fs w) p)
          end then false
  else if match nodekey chain_config with None => true | Some _ => false end then false
  else true.

(** [raise MissingPath(message.format(path), path)]: the name [MissingPath]
    is looked up first. *)
Definition raise_MissingPath {A : Type} (message : string) (p : Path) : IO A :=
  match load_global "MissingPath" with
  | Return _ => io_raise (new_exception MissingPath [message ++ path_str p ++ "`"; path_str p])
  | Raise e => io_raise e
  end.

(** [open(chain_config.nodekey_path, 'wb')] *)
Definition open_nodekey_file (chain_config : ChainConfig) (data : bytes) : IO unit :=
  match nodekey_path chain_config with
  | Some p => on_fs (write_bytes p data)
  | None =>
      io_raise (new_exception TypeError
                  ["expected str, bytes or os.PathLike object, not NoneType"])
  end.

Definition initialize_data_dir (chain_config : ChainConfig) : IO unit :=
  fun w0 =>
  (run (fun w =>
     if negb (exists_ (fs w) (data_dir chain_config))
        && is_under_xdg_trinity_root (data_dir chain_config)
     then on_fs (mkdir_parents (data_dir chain_config)) w
     else if negb (exists_ (fs w) (data_dir chain_config))
     then raise_MissingPath "The base chain directory provided does not exist: `"
            (data_dir chain_config) w
     else io_ret tt w) ;
   (* Logfile *)
   run (fun w =>
     if negb (exists_ (fs w) (logdir_path chain_config))
        && is_under_xdg_trinity_root (logdir_path chain_config)
     then (run on_fs (mkdir_parents (logdir_path chain_config)) ;
           on_fs (touch (logfile_path chain_config))) w
     else if negb (exists_ (fs w) (logdir_path chain_config))
     then raise_MissingPath "The base logging directory provided does not exist: `"
            (logdir_path chain_config) w
     else io_ret tt w) ;
   (* Chain data-dir *)
   run on_fs (mkdir_parents (database_dir chain_config)) ;
   (* Nodekey *)
   match nodekey chain_config with
   | None =>
       do key <- ecies_generate_privkey ;
       open_nodekey_file chain_config key
   | Some _ => io_ret tt
   end) w0.

End InitializeDataDir.

End DataDir.

(** ** ChainDatabaseInitializer: [is_database_initialized] and
    [initialize_database] *)

Module Database.

Import Genesis.

(** The attributes of [ChainConfig] that [initialize_database] reads:
    [network_id] and the header that [genesis_header()] returns. *)
Record ChainConfig : Type := mkChainConfig {
  network_id : Z;
  genesis_header : BlockHeader
}.

Section ChainDB.

(** The chain database is a collaborator: its state and its two operations
    are taken as given, and so are the constants of [eth.chains.mainnet]
    and [eth.chains.ropsten]. *)
Variable DB : Type.
Variable get_canonical_head : DB -> Result BlockHeader.
Variable persist_header : BlockHeader -> DB -> Result unit * DB.
Variables MAINNET_NETWORK_ID ROPSTEN_NETWORK_ID : Z.
Variables MAINNET_GENESIS_HEADER ROPSTEN_GENESIS_HEADER : BlockHeader.

(** The database together with the log of the headers handed to
    [persist_header], in call order. *)
Record World : Type := mkWorld {
  db : DB;
  persisted : list BlockHeader
}.

(** [chaindb.persist_header(header)] *)
Definition chaindb_persist_header (header : BlockHeader) (w : World)
  : Result unit * World :=
  let '(r, db') := persist_header header (db w) in
  (r, {| db := db'; persisted := (persisted w ++ [header])%list |}).

Definition is_database_initialized (chaindb : DB) : Result bool :=
  match get_canonical_head chaindb with
  | Raise e =>
      if isinstance e "CanonicalHeadNotFound" then Return false
      else Raise e
  | Return _ => Return true
  end.

Definition initialize_database (chain_config : ChainConfig) (w : World)
  : Result unit * World :=
  match get_canonical_head (db w) with
  | Raise e =>
      if isinstance e "CanonicalHeadNotFound" then
        if (network_id chain_config =? ROPSTEN_NETWORK_ID)%Z then
          chaindb_persist_header ROPSTEN_GENESIS_HEADER w
        else if (network_id chain_config =? MAINNET_NETWORK_ID)%Z then
          chaindb_persist_header MAINNET_GENESIS_HEADER w
        else
          chaindb_persist_header (genesis_header chain_config) w
      else (Raise e, w)
  | Return _ => (Return tt, w)
  end.

End ChainDB.

Arguments db {DB} w.
Arguments persisted {DB} w.
Arguments mkWorld {DB} db persisted.

End Database.

(** ** ExceptionForwarder: [TracebackRecorder], [record_traceback_on_error],
    [ChainedExceptionWithTraceback] and [rebuild_exc] *)

Module Forwarder.

(** A traceback object, by its frames (outermost first). *)
Definition Traceback : Type := list string.

Definition newline : string := String (ascii_of_nat 10) EmptyString.
Definition triple_quote : string :=
  let q := ascii_of_nat 34 in String q (String q (String q EmptyString)).

Definition RemoteTraceback_class : PyClass := mkClass "RemoteTraceback" Exception_bases.

(** [RemoteTraceback(tb)]: [__init__] stores [self.tb]; the positional
    argument is also kept as [args]. *)
Definition RemoteTraceback (tb : string) : PyException :=
  {| exc_class := RemoteTraceback_class; exc_args := [tb]; exc_dict := [("tb", tb)];
     exc_cause := None; exc_context := None; exc_suppress_context := false |}.

Definition getattr_dict (e : PyException) (name : string) : option string :=
  snd <$> List.find (fun kv => String.eqb (fst kv) name) (exc_dict e).

(** [BaseException.__str__]: the empty string, the single argument, or the
    rendering of the argument tuple (quotes inside an argument are not
    escaped here). *)
Definition BaseException_str (e : PyException) : string :=
  match exc_args e with
  | [] => ""
  | [a] => a
  | args => "(" ++ String.concat ", " (map (fun a => "'" ++ a ++ "'") args) ++ ")"
  end.

(** [str(e)]: [RemoteTraceback.__str__] returns [self.tb]. *)
Definition str (e : PyException) : Result string :=
  if String.eqb (cls_name (exc_class e)) "RemoteTraceback" then
    match getattr_dict e "tb" with
    | Some tb => Return tb
    | None => Raise (new_exception AttributeError ["tb"])
    end
  else Return (BaseException_str e).

(** [exc.__cause__ = value]: the data model's setter for [__cause__] also
    sets [__suppress_context__] to [True]. *)
Definition set_cause (exc : PyException) (value : PyException) : PyException :=
  {| exc_class := exc_class exc; exc_args := exc_args exc; exc_dict := exc_dict exc;
     exc_cause := Some value; exc_context := exc_context exc;
     exc_suppress_context := true |}.

Definition rebuild_exc (exc : PyException) (tb : string) : PyException :=
  set_cause exc (RemoteTraceback tb).

Record ChainedExceptionWithTraceback : Type := mkChained {
  tb : string;
  exc : PyException
}.

(** What [__reduce__] returns: a callable and its arguments. *)
Record Reduced : Type := mkReduced {
  callable : PyException -> string -> PyException;
  arguments : PyException * string
}.

Definition ChainedExceptionWithTraceback__reduce__ (self : ChainedExceptionWithTraceback)
  : Reduced :=
  {| callable := rebuild_exc; arguments := (exc self, tb self) |}.

(** [setattr(obj, key, value)] on the instance [__dict__]: an existing
    entry is updated in place, a new one is added at the end. *)
Fixpoint setattr_dict (d : list (string * string)) (key value : string)
  : list (string * string) :=
  match d with
  | [] => [(key, value)]
  | (k, v) :: d' =>
      if String.eqb k key then (k, value) :: d'
      else (k, v) :: setattr_dict d' key value
  end.

(** [BaseException.__setstate__(state)]: every entry of the shipped
    [__dict__] is set on the new object. *)
Definition setstate (e : PyException) (state : list (string * string)) : PyException :=
  {| exc_class := exc_class e; exc_args := exc_args e;
     exc_dict := fold_left (fun d kv => setattr_dict d (fst kv) (snd kv))
                   state (exc_dict e);
     exc_cause := exc_cause e; exc_context := exc_context e;
     exc_suppress_context := exc_suppress_context e |}.

Section Pickle.

(** Calling an exception class with positional arguments: what the class's
    constructor makes of them.  It differs from class to class (a class
    may require more arguments than it keeps in [args], or rewrite them)
    and is taken as given. *)
Variable construct : PyClass -> list string -> Result PyException.

(** How an exception object crosses the process boundary by itself:
    [BaseException.__reduce__] ships the class, [args] and the instance
    [__dict__]; on the receiving side the class is called with [args] and
    the state is restored on the object it returns.  The chaining
    attributes are not shipped. *)
Definition unpickle_exception (e : PyException) : Result PyException :=
  rebuilt ← construct (exc_class e) (exc_args e) ;
  Return (setstate rebuilt (exc_dict e)).

(** [pickle.loads(pickle.dumps(container))]: the reduced arguments are
    shipped and the callable is applied to them on the receiving side. *)
Definition loads_dumps (c : ChainedExceptionWithTraceback) : Result PyException :=
  let r := ChainedExceptionWithTraceback__reduce__ c in
  shipped ← unpickle_exception (fst (arguments r)) ;
  Return (callable r shipped (snd (arguments r))).

End Pickle.

(** The constructor of a class that defines no [__init__] of its own. *)
Definition BaseException_construct (c : PyClass) (args : list string)
  : Result PyException :=
  Return (new_exception c args).

Section Recorder.

(** Python values and the state the wrapped resource's methods act on are
    left abstract; [traceback.format_exception] is the standard library's. *)
Variable Value : Type.
Variable State : Type.
Variable format_exception : PyClass -> PyException -> Traceback -> list string.

(** [ChainedExceptionWithTraceback(exc, tb)] *)
Definition ChainedExceptionWithTraceback__init__ (exc_ : PyException) (tb_ : Traceback)
  : ChainedExceptionWithTraceback :=
  {| tb := newline ++ triple_quote ++ newline
           ++ String.concat "" (format_exception (exc_class exc_) exc_ tb_)
           ++ triple_quote;
     exc := exc_ |}.

(** The outcome of calling an attribute of the wrapped resource: a value,
    or an exception together with its [__traceback__] as a handler sees
    it.  Arguments are positional. *)
Inductive Outcome : Type :=
| Returned (v : Value)
| Raised (e : PyException) (traceback : Traceback).

Definition Method : Type := list Value -> State -> Outcome * State.

(** What [getattr(obj, name)] can yield: a non-callable value, a bound
    method, or a callable that is not a bound method (a plain function
    stored on the instance, a builtin, a static method, a class). *)
Inductive Attr : Type :=
| Data (v : Value)
| BoundMethod (f : Method)
| OtherCallable (f : Method).

Definition inspect_ismethod (a : Attr) : bool :=
  match a with
  | BoundMethod _ => true
  | _ => false
  end.

Definition is_callable (a : Attr) : bool :=
  match a with
  | Data _ => false
  | _ => true
  end.

(** Calling the attribute with positional arguments. *)
Definition call (a : Attr) : Method :=
  match a with
  | Data _ =>
      fun _ s => (Raised (new_exception TypeError ["object is not callable"]) [], s)
  | BoundMethod f => f
  | OtherCallable f => f
  end.

(** The outcome of calling the wrapper: what the wrapped call returned, an
    exception that went through untouched, or the container raised in the
    handler. *)
Inductive WrapperOutcome : Type :=
| WReturned (v : Value)
| WRaised (e : PyException) (traceback : Traceback)
| WRaisedChained (c : ChainedExceptionWithTraceback).

Definition Wrapper : Type := list Value -> State -> WrapperOutcome * State.

Definition record_traceback_on_error (attr : Attr) : Wrapper :=
  fun args s =>
    match call attr args s with
    | (Returned v, s') => (WReturned v, s')
    | (Raised e traceback, s') =>
        if isinstance e "Exception"
        then (WRaisedChained (ChainedExceptionWithTraceback__init__ e traceback), s')
        else (WRaised e traceback, s')
    end.

Record TracebackRecorder : Type := mkRecorder {
  obj : gmap string Attr
}.

(** [getattr(self.obj, name)] *)
Definition getattr (o : gmap string Attr) (name : string) : Result Attr :=
  match o !! name with
  | Some a => Return a
  | None =>
      Raise (new_exception AttributeError ["object has no attribute '" ++ name ++ "'"])
  end.

(** What [__getattr__] hands back: the resource's attribute itself, or a
    wrapper around it. *)
Inductive RecorderAttr : Type :=
| Unwrapped (attr : Attr)
| Wrapped (wrapper : Wrapper).

Definition TracebackRecorder__getattr__ (self : TracebackRecorder) (name : string)
  : Result RecorderAttr :=
  attr ← getattr (obj self) name ;
  if negb (inspect_ismethod attr) then Return (Unwrapped attr)
  else Return (Wrapped (record_traceback_on_error attr)).

(** The names every instance answers by normal attribute lookup, through
    its class machinery and [object] ([__class__], [__dict__], [__repr__]
    and the like); the list depends on the interpreter and is taken as
    given. *)
Variable object_names : list string.

(** The names normal lookup finds on the adapter itself: what [__init__]
    sets on the instance, what the class body defines, and what every
    object has. *)
Definition adapter_names : list string :=
  "obj" :: "__init__" :: "__dir__" :: "__getattr__" :: object_names.

(** What reading [adapter.name] gives: the adapter's own [obj], another
    attribute of the adapter itself, or what [__getattr__] hands back. *)
Inductive AttributeRead : Type :=
| OwnObj (resource : gmap string Attr)
| OwnMember (name : string)
| Delegated (result : Result RecorderAttr).

(** Reading an attribute of the adapter: [__getattr__] is consulted only
    when normal lookup does not find the name. *)
Definition TracebackRecorder_getattribute (self : TracebackRecorder) (name : string)
  : AttributeRead :=
  if String.eqb name "obj" then OwnObj (obj self)
  else if existsb (String.eqb name) adapter_names then OwnMember name
  else Delegated (TracebackRecorder__getattr__ self name).

End Recorder.

End Forwarder.

(** ** ObjectHost: the database bootstrap and chain selection of
    [get_chaindb_manager] *)

Module Manager.

Import Genesis Database.

(** The chain classes [get_chaindb_manager] chooses from. *)
Inductive ChainClass : Type :=
| MainnetChain
| RopstenChain
| PrivateChain.

Section GetChaindbManager.

Variable DB : Type.
Variable get_canonical_head : DB -> Result BlockHeader.
Variable persist_header : BlockHeader -> DB -> Result unit * DB.
Variables MAINNET_NETWORK_ID ROPSTEN_NETWORK_ID : Z.
Variables MAINNET_GENESIS_HEADER ROPSTEN_GENESIS_HEADER : BlockHeader.

(** Lines 269-270: [if not is_database_initialized(chaindb):
    initialize_database(chain_config, chaindb)]. *)
Definition ensure_database (chain_config : ChainConfig) (w : World DB)
  : Result unit * World DB :=
  match is_database_initialized DB get_canonical_head (db w) with
  | Raise e => (Raise e, w)
  | Return initialized =>
      if negb initialized then
        initialize_database DB get_canonical_head persist_header
          MAINNET_NETWORK_ID ROPSTEN_NETWORK_ID
          MAINNET_GENESIS_HEADER ROPSTEN_GENESIS_HEADER chain_config w
      else (Return tt, w)
  end.

(** Lines 271-276: the chain class for the configured network. *)
Definition chain_class_of (chain_config : ChainConfig) : ChainClass :=
  if (network_id chain_config =? MAINNET_NETWORK_ID)%Z then MainnetChain
  else if (network_id chain_config =? ROPSTEN_NETWORK_ID)%Z then RopstenChain
  else PrivateChain.

(** Lines 267-276 of [get_chaindb_manager]: the database is initialised if
    need be, then the chain class is chosen.  Building the chain, the
    header database and the manager object (lines 277-310) belongs to the
    collaborators. *)
Definition get_chaindb_manager_chain (chain_config : ChainConfig) (w : World DB)
  : Result ChainClass * World DB :=
  match ensure_database chain_config w with
  | (Raise e, w') => (Raise e, w')
  | (Return _, w') => (Return (chain_class_of chain_config), w')
  end.

End GetChaindbManager.

End Manager.

(** * Properties *)

(** ** GenesisSpec *)

Module GenesisProofs.

Import Genesis.

Lemma not_in_keys_true key (genesis : gmap string PyValue) :
  genesis !! key = None -> not_in_keys key genesis = true.
Proof. intros H. apply bool_decide_eq_true. exact H. Qed.

Lemma not_in_keys_false key (genesis : gmap string PyValue) :
  is_Some (genesis !! key) -> not_in_keys key genesis = false.
Proof.
  intros [v Hv]. apply bool_decide_eq_false. rewrite Hv. discriminate.
Qed.

(** The checks run in the fixed order chainId, difficulty, gasLimit, nonce,
    extraData: the first missing key is the one reported. *)
Lemma is_valid_genesis_header_first_missing (genesis : gmap string PyValue) :
  is_valid_genesis_header genesis =
    match List.find (fun k => not_in_keys k genesis)
            ["chainId"; "difficulty"; "gasLimit"; "nonce"; "extraData"] with
    | Some k => Raise (missing_key k)
    | None => Return true
    end.
Proof.
  unfold is_valid_genesis_header. cbn [List.find].
  repeat (match goal with |- context [not_in_keys ?k genesis] =>
            destruct (not_in_keys k genesis) end; [reflexivity|]).
  reflexivity.
Qed.

(** A config that lacks both [chainId] and [difficulty]. *)
Definition genesis_without_chainId : gmap string PyValue :=
  {[ "gasLimit" := VStr "0x1388";
     "nonce" := VStr "0x0000000000000042";
     "extraData" := VStr "0x" ]}.

(** A complete config. *)
Definition genesis_example : gmap string PyValue :=
  {[ "chainId" := VStr "0x01";
     "difficulty" := VStr "0x400";
     "gasLimit" := VStr "0x1388";
     "nonce" := VStr "0x0000000000000042";
     "extraData" := VStr "0x" ]}.

(** C9, as stated, fails: with [difficulty] absent and [chainId] absent
    too, the error names [chainId], not [difficulty]. *)
Lemma validate_missing_difficulty_names_chainId :
  genesis_without_chainId !! "difficulty" = None
  /\ is_valid_genesis_header genesis_without_chainId = Raise (missing_key "chainId")
  /\ missing_key "chainId" <> missing_key "difficulty".
Proof.
  split; [|split].
  - vm_compute. reflexivity.
  - vm_compute. reflexivity.
  - intros H. discriminate H.
Qed.

(** C9 (amended): when [difficulty] is absent, [is_valid_genesis_header]
    raises the ValidationError naming [difficulty] provided [chainId] is
    present, whatever the presence of gasLimit, nonce and extraData; when
    [chainId] is absent too, the error names [chainId]. *)
Theorem validate_missing_difficulty (genesis : gmap string PyValue) :
  genesis !! "difficulty" = None ->
  (is_Some (genesis !! "chainId") ->
     is_valid_genesis_header genesis = Raise (missing_key "difficulty"))
  /\ (genesis !! "chainId" = None ->
     is_valid_genesis_header genesis = Raise (missing_key "chainId")).
Proof.
  intros Hd. unfold is_valid_genesis_header. split; intros Hc.
  - rewrite (not_in_keys_false _ _ Hc), (not_in_keys_true _ _ Hd). reflexivity.
  - rewrite (not_in_keys_true _ _ Hc). reflexivity.
Qed.

Lemma validate_missing_difficulty_witness :
  is_valid_genesis_header {[ "chainId" := VStr "0x01"; "nonce" := VStr "0x42" ]}
  = Raise (missing_key "difficulty").
Proof.
  apply (validate_missing_difficulty {[ "chainId" := VStr "0x01"; "nonce" := VStr "0x42" ]}).
  - vm_compute. reflexivity.
  - exists (VStr "0x01"). vm_compute. reflexivity.
Defined.

Definition constants_NameError : PyException :=
  new_exception NameError ["name 'constants' is not defined"].

(** The module imports [eth.constants] but reads the bare name
    [constants], which it never binds: once the three leading subscripts
    succeed, building the header raises NameError. *)
Lemma get_genesis_header_NameError decode_hex z b u (genesis : gmap string PyValue) :
  is_Some (genesis !! "difficulty") ->
  is_Some (genesis !! "extraData") ->
  is_Some (genesis !! "gasLimit") ->
  get_genesis_header decode_hex z b u genesis = Raise constants_NameError.
Proof.
  intros [d Hd] [e He] [g Hg].
  unfold get_genesis_header, getitem. rewrite Hd, He, Hg. reflexivity.
Qed.

(** No input makes [get_genesis_header] return a header. *)
Lemma get_genesis_header_never_returns decode_hex z b u
    (genesis : gmap string PyValue) r :
  get_genesis_header decode_hex z b u genesis <> Return r.
Proof.
  unfold get_genesis_header, getitem.
  destruct (genesis !! "difficulty"); [|discriminate].
  destruct (genesis !! "extraData"); [|discriminate].
  destruct (genesis !! "gasLimit"); discriminate.
Qed.

(** C8 at a complete config: validation passes, and deriving the header
    raises NameError whatever [decode_hex] and the constants are. *)
Theorem get_genesis_header_complete_config decode_hex z b u :
  is_valid_genesis_header genesis_example = Return true
  /\ get_genesis_header decode_hex z b u genesis_example = Raise constants_NameError.
Proof.
  split.
  - vm_compute. reflexivity.
  - apply get_genesis_header_NameError; eexists; vm_compute; reflexivity.
Qed.

End GenesisProofs.

(** ** NodeBootstrap *)

Module DataDirProofs.

Import Genesis DataDir.

(** Every entry of [fs] is still there, unchanged, in [fs']. *)
Definition preserves (fs fs' : gmap Path Node) : Prop :=
  forall q n, fs !! q = Some n -> fs' !! q = Some n.

Lemma preserves_refl fs : preserves fs fs.
Proof. intros q n H. exact H. Qed.

Lemma preserves_trans fs1 fs2 fs3 :
  preserves fs1 fs2 -> preserves fs2 fs3 -> preserves fs1 fs3.
Proof. intros H12 H23 q n H. apply H23, H12, H. Qed.

Lemma preserves_insert_fresh (fs : gmap Path Node) p n :
  fs !! p = None -> preserves fs (<[p := n]> fs).
Proof.
  intros Hp q m Hq. rewrite lookup_insert_ne; [exact Hq|].
  intros ->. rewrite Hp in Hq. discriminate.
Qed.

Lemma node_at_None (fs : gmap Path Node) p :
  node_at fs p = None -> fs !! p = None.
Proof. destruct p; [discriminate|]. intros H. exact H. Qed.

Lemma mkdir_from_preserves rest : forall prefix fs fs',
  mkdir_from prefix rest fs = Return fs' -> preserves fs fs'.
Proof.
  induction rest as [|c rest IH]; intros prefix fs fs' H; cbn in H.
  - injection H as <-. apply preserves_refl.
  - destruct (fs !! (prefix ++ [c])%list) as [[|content]|] eqn:Hhere.
    + eapply IH, H.
    + discriminate.
    + eapply preserves_trans; [|eapply IH, H].
      apply preserves_insert_fresh, Hhere.
Qed.

Lemma mkdir_parents_preserves p fs fs' :
  mkdir_parents p fs = Return fs' -> preserves fs fs'.
Proof. apply mkdir_from_preserves. Qed.

Lemma touch_preserves p fs fs' :
  touch p fs = Return fs' -> preserves fs fs'.
Proof.
  unfold touch. destruct (node_at fs p) eqn:Hp.
  - intros H. injection H as <-. apply preserves_refl.
  - destruct (check_parent p fs); cbn; [|discriminate].
    intros H. injection H as <-. apply preserves_insert_fresh, node_at_None, Hp.
Qed.

Lemma write_bytes_lookup p data fs fs' :
  write_bytes p data fs = Return fs' -> fs' !! p = Some (File data).
Proof.
  unfold write_bytes. destruct (node_at fs p) as [[|content]|].
  - discriminate.
  - intros H. injection H as <-. apply lookup_insert_eq.
  - destruct (check_parent p fs); cbn; [|discriminate].
    intros H. injection H as <-. apply lookup_insert_eq.
Qed.

(** A computation that draws no key and keeps every existing entry,
    whether it returns or raises. *)
Definition stable {A : Type} (m : IO A) : Prop :=
  forall w r w', m w = (r, w') ->
    keys_drawn w' = keys_drawn w /\ preserves (fs w) (fs w').

Lemma stable_ret {A : Type} (a : A) : stable (io_ret a).
Proof.
  intros w r w' H. injection H as <- <-. split; [reflexivity | apply preserves_refl].
Qed.

Lemma stable_raise {A : Type} e : stable (@io_raise A e).
Proof.
  intros w r w' H. injection H as <- <-. split; [reflexivity | apply preserves_refl].
Qed.

Lemma stable_on_fs op :
  (forall fs fs', op fs = Return fs' -> preserves fs fs') -> stable (on_fs op).
Proof.
  intros Hop w r w' H. unfold on_fs in H.
  destruct (op (fs w)) as [fs1|e] eqn:Hrun; injection H as <- <-; cbn.
  - split; [reflexivity | eapply Hop, Hrun].
  - split; [reflexivity | apply preserves_refl].
Qed.

Lemma stable_bind {A B : Type} (m : IO A) (k : A -> IO B) :
  stable m -> (forall a, stable (k a)) -> stable (io_bind m k).
Proof.
  intros Hm Hk w r w' H. unfold io_bind in H.
  destruct (m w) as [[a|e] w1] eqn:Hrun.
  - destruct (Hm _ _ _ Hrun) as [Hk1 Hp1].
    destruct (Hk a _ _ _ H) as [Hk2 Hp2].
    split; [congruence | eapply preserves_trans; eassumption].
  - injection H as <- <-. eapply Hm, Hrun.
Qed.

Lemma stable_raise_MissingPath {A : Type} message p :
  stable (@raise_MissingPath A message p).
Proof.
  unfold raise_MissingPath. destruct (load_global "MissingPath"); apply stable_raise.
Qed.

Lemma stable_if {A : Type} (c : World -> bool) (m1 m2 : IO A) :
  stable m1 -> stable m2 -> stable (fun w => if c w then m1 w else m2 w).
Proof.
  intros H1 H2 w r w' H. destruct (c w); [eapply H1 | eapply H2]; exact H.
Qed.

Lemma io_bind_Return {A B : Type} (m : IO A) (k : A -> IO B) w b w' :
  io_bind m k w = (Return b, w') ->
  exists a w1, m w = (Return a, w1) /\ k a w1 = (Return b, w').
Proof.
  unfold io_bind. destruct (m w) as [[a|e] w1]; intros H.
  - exists a, w1. split; [reflexivity | exact H].
  - discriminate.
Qed.

Section Ensure.

Variable is_under_xdg_trinity_root : Path -> bool.
Variable generate_privkey : nat -> bytes.

Abbreviation initialize_data_dir :=
  (initialize_data_dir is_under_xdg_trinity_root generate_privkey).

(** The base directory, log file and chain data-dir steps (lines 150-177). *)
Definition directory_steps (chain_config : ChainConfig) : IO unit :=
  run (fun w =>
     if negb (exists_ (fs w) (data_dir chain_config))
        && is_under_xdg_trinity_root (data_dir chain_config)
     then on_fs (mkdir_parents (data_dir chain_config)) w
     else if negb (exists_ (fs w) (data_dir chain_config))
     then raise_MissingPath "The base chain directory provided does not exist: `"
            (data_dir chain_config) w
     else io_ret tt w) ;
  run (fun w =>
     if negb (exists_ (fs w) (logdir_path chain_config))
        && is_under_xdg_trinity_root (logdir_path chain_config)
     then (run on_fs (mkdir_parents (logdir_path chain_config)) ;
           on_fs (touch (logfile_path chain_config))) w
     else if negb (exists_ (fs w) (logdir_path chain_config))
     then raise_MissingPath "The base logging directory provided does not exist: `"
            (logdir_path chain_config) w
     else io_ret tt w) ;
  on_fs (mkdir_parents (database_dir chain_config)).

(** The nodekey step (lines 179-183). *)
Definition nodekey_step (chain_config : ChainConfig) : IO unit :=
  match nodekey chain_config with
  | None =>
      do key <- ecies_generate_privkey generate_privkey ;
      open_nodekey_file chain_config key
  | Some _ => io_ret tt
  end.

Lemma io_bind_assoc {A B C : Type} (m : IO A) (k : A -> IO B) (h : B -> IO C) w :
  io_bind (io_bind m k) h w = io_bind m (fun a => io_bind (k a) h) w.
Proof.
  unfold io_bind. destruct (m w) as [[a|e] w1]; reflexivity.
Qed.

Lemma io_bind_ext {A B : Type} (m : IO A) (k k' : A -> IO B) w :
  (forall a w1, k a w1 = k' a w1) -> io_bind m k w = io_bind m k' w.
Proof.
  intros H. unfold io_bind. destruct (m w) as [[a|e] w1]; [apply H | reflexivity].
Qed.

Lemma initialize_data_dir_steps chain_config w :
  initialize_data_dir chain_config w =
  io_bind (directory_steps chain_config) (fun _ => nodekey_step chain_config) w.
Proof.
  unfold DataDir.initialize_data_dir, directory_steps. symmetry.
  rewrite io_bind_assoc. apply io_bind_ext. intros _ w1.
  rewrite io_bind_assoc. reflexivity.
Qed.

Lemma stable_directory_steps chain_config : stable (directory_steps chain_config).
Proof.
  unfold directory_steps.
  apply stable_bind; [|intros _; apply stable_bind; [|intros _]].
  - apply (stable_if (fun w => negb (exists_ (fs w) (data_dir chain_config))
                               && is_under_xdg_trinity_root (data_dir chain_config))).
    + apply stable_on_fs, mkdir_parents_preserves.
    + apply (stable_if (fun w => negb (exists_ (fs w) (data_dir chain_config)))).
      * apply stable_raise_MissingPath.
      * apply stable_ret.
  - apply (stable_if (fun w => negb (exists_ (fs w) (logdir_path chain_config))
                               && is_under_xdg_trinity_root (logdir_path chain_config))).
    + apply stable_bind; [|intros _].
      * apply stable_on_fs, mkdir_parents_preserves.
      * apply stable_on_fs, touch_preserves.
    + apply (stable_if (fun w => negb (exists_ (fs w) (logdir_path chain_config)))).
      * apply stable_raise_MissingPath.
      * apply stable_ret.
  - apply stable_on_fs, mkdir_parents_preserves.
Qed.

Definition MissingPath_NameError : PyException :=
  new_exception NameError ["name 'MissingPath' is not defined"].

(** C7, missing unmanaged base directory: the module never binds the name
    [MissingPath], so the [raise] statement itself fails with NameError;
    nothing has been touched at that point. *)
Theorem initialize_data_dir_missing_unmanaged chain_config w :
  exists_ (fs w) (data_dir chain_config) = false ->
  is_under_xdg_trinity_root (data_dir chain_config) = false ->
  initialize_data_dir chain_config w = (Raise MissingPath_NameError, w).
Proof.
  intros Hmissing Hunmanaged.
  unfold DataDir.initialize_data_dir, io_bind.
  rewrite Hmissing, Hunmanaged. reflexivity.
Qed.

(** On the config record as it stands: a key is drawn and written exactly
    when its [nodekey] value is absent.  With a nodekey present, no key is drawn and
    every existing entry (the nodekey file included) keeps its bytes,
    whether or not the run succeeds; with none, a run that returns has
    drawn exactly one key and left its bytes at the configured
    [nodekey_path]. *)
Theorem initialize_data_dir_nodekey chain_config w r w' :
  initialize_data_dir chain_config w = (r, w') ->
  (nodekey chain_config <> None ->
     keys_drawn w' = keys_drawn w /\ preserves (fs w) (fs w'))
  /\ (nodekey chain_config = None -> r = Return tt ->
     keys_drawn w' = S (keys_drawn w)
     /\ exists p, nodekey_path chain_config = Some p
          /\ fs w' !! p = Some (File (generate_privkey (keys_drawn w)))).
Proof.
  rewrite initialize_data_dir_steps. intros Hrun. split.
  - intros Hkey.
    assert (Hstable : stable (io_bind (directory_steps chain_config)
                                (fun _ => nodekey_step chain_config))).
    { apply stable_bind; [apply stable_directory_steps | intros _].
      unfold nodekey_step. destruct (nodekey chain_config); [|congruence].
      apply stable_ret. }
    exact (Hstable _ _ _ Hrun).
  - intros Hkey ->.
    apply io_bind_Return in Hrun as (a & w1 & Hdirs & Hstep).
    destruct (stable_directory_steps _ _ _ _ Hdirs) as [Hdrawn _].
    unfold nodekey_step in Hstep. rewrite Hkey in Hstep.
    apply io_bind_Return in Hstep as (key & w2 & Hgen & Hopen).
    unfold ecies_generate_privkey in Hgen. injection Hgen as <- <-.
    unfold open_nodekey_file in Hopen.
    destruct (nodekey_path chain_config) as [p|]; [|discriminate].
    unfold on_fs in Hopen. cbn [fs keys_drawn] in Hopen.
    destruct (write_bytes p _ (fs w1)) as [fs2|e] eqn:Hwrite; [|discriminate].
    injection Hopen as <-. cbn [fs keys_drawn]. split; [congruence|].
    exists p. split; [reflexivity|].
    rewrite <- Hdrawn. eapply write_bytes_lookup, Hwrite.
Qed.

End Ensure.

(** *** Concrete layouts *)

Fixpoint starts_with (root p : Path) : bool :=
  match root, p with
  | [], _ => true
  | r :: root', c :: p' => String.eqb r c && starts_with root' p'
  | _ :: _, [] => false
  end.

Definition xdg_trinity_root : Path := ["home"; "node"; ".local"; "share"; "trinity"].

Definition under_xdg_trinity_root (p : Path) : bool := starts_with xdg_trinity_root p.

Definition example_privkey (n : nat) : bytes := Byte.x2a :: repeat Byte.x00 n.

Definition layout (base : Path) (key_path : option Path) (key : option bytes)
  : ChainConfig :=
  {| data_dir := base;
     database_dir := (base ++ ["chain"])%list;
     logdir_path := (base ++ ["logs"])%list;
     logfile_path := (base ++ ["logs"; "trinity.log"])%list;
     nodekey_path := key_path;
     nodekey := key |}.

Definition managed_base : Path := (xdg_trinity_root ++ ["mainnet"])%list.
Definition unmanaged_base : Path := ["srv"; "chain-data"].

Definition empty_world : World := {| fs := ∅; keys_drawn := 0 |}.

(** A fresh managed layout: nothing on disk, no nodekey yet. *)
Definition fresh_layout : ChainConfig :=
  layout managed_base (Some (managed_base ++ ["nodekey"])%list) None.

(** An unmanaged layout whose base directory does not exist. *)
Definition unmanaged_layout : ChainConfig :=
  layout unmanaged_base (Some (unmanaged_base ++ ["nodekey"])%list) None.

(** A node with an explicitly defined nodekey and no nodekey path, all of
    whose directories and log file exist. *)
Definition explicit_key : bytes := [Byte.x07; Byte.x07].
Definition explicit_key_layout : ChainConfig :=
  layout unmanaged_base None (Some explicit_key).
Definition laid_out_world : World :=
  {| fs := {[ ["srv"] := Dir;
              unmanaged_base := Dir;
              (unmanaged_base ++ ["chain"])%list := Dir;
              (unmanaged_base ++ ["logs"])%list := Dir;
              (unmanaged_base ++ ["logs"; "trinity.log"])%list := File [] ]};
     keys_drawn := 0 |}.

(** The same node where the log directory exists but the log file does not. *)
Definition no_logfile_world : World :=
  {| fs := {[ ["srv"] := Dir;
              unmanaged_base := Dir;
              (unmanaged_base ++ ["chain"])%list := Dir;
              (unmanaged_base ++ ["logs"])%list := Dir ]};
     keys_drawn := 0 |}.

Lemma initialize_data_dir_missing_unmanaged_witness :
  initialize_data_dir under_xdg_trinity_root example_privkey unmanaged_layout empty_world
  = (Raise MissingPath_NameError, empty_world).
Proof.
  apply (initialize_data_dir_missing_unmanaged under_xdg_trinity_root example_privkey
           unmanaged_layout empty_world); vm_compute; reflexivity.
Defined.

(** No nodekey path is configured, and no key is drawn and nothing is
    written. *)
Lemma initialize_data_dir_no_path_no_key :
  nodekey_path explicit_key_layout = None
  /\ initialize_data_dir under_xdg_trinity_root example_privkey
       explicit_key_layout laid_out_world
     = (Return tt, laid_out_world).
Proof. split; vm_compute; reflexivity. Qed.

Lemma initialize_data_dir_nodekey_witness :
  keys_drawn (snd (initialize_data_dir under_xdg_trinity_root example_privkey
                     fresh_layout empty_world)) = 1
  /\ exists p, nodekey_path fresh_layout = Some p
       /\ fs (snd (initialize_data_dir under_xdg_trinity_root example_privkey
                     fresh_layout empty_world)) !! p
          = Some (File (example_privkey 0)).
Proof.
  apply (proj2 (initialize_data_dir_nodekey under_xdg_trinity_root example_privkey
                  fresh_layout empty_world
                  (fst (initialize_data_dir under_xdg_trinity_root example_privkey
                          fresh_layout empty_world))
                  (snd (initialize_data_dir under_xdg_trinity_root example_privkey
                          fresh_layout empty_world))
                  (surjective_pairing _))).
  - reflexivity.
  - vm_compute. reflexivity.
Defined.

(** C6 at a layout whose log directory exists and whose log file does not:
    the run returns, nothing has been created, the log file is still
    missing, and [is_data_dir_initialized] still answers [False]. *)
Theorem initialize_data_dir_leaves_logfile_missing :
  exists_ (fs no_logfile_world) (logdir_path explicit_key_layout) = true
  /\ initialize_data_dir under_xdg_trinity_root example_privkey
       explicit_key_layout no_logfile_world
     = (Return tt, no_logfile_world)
  /\ exists_ (fs no_logfile_world) (logfile_path explicit_key_layout) = false
  /\ is_data_dir_initialized explicit_key_layout no_logfile_world = false.
Proof. repeat split; vm_compute; reflexivity. Qed.

End DataDirProofs.

(** ** ChainDatabaseInitializer *)

Module DatabaseProofs.

Import Genesis Database.

Section ChainDB.

Variable DB : Type.
Variable get_canonical_head : DB -> Result BlockHeader.
Variable persist_header : BlockHeader -> DB -> Result unit * DB.
Variables MAINNET_NETWORK_ID ROPSTEN_NETWORK_ID : Z.
Variables MAINNET_GENESIS_HEADER ROPSTEN_GENESIS_HEADER : BlockHeader.

Abbreviation is_database_initialized :=
  (is_database_initialized DB get_canonical_head).
Abbreviation chaindb_persist_header :=
  (chaindb_persist_header DB persist_header).
Abbreviation initialize_database :=
  (initialize_database DB get_canonical_head persist_header
     MAINNET_NETWORK_ID ROPSTEN_NETWORK_ID
     MAINNET_GENESIS_HEADER ROPSTEN_GENESIS_HEADER).

Lemma chaindb_persist_header_log header w :
  persisted (snd (chaindb_persist_header header w)) = (persisted w ++ [header])%list.
Proof.
  unfold Database.chaindb_persist_header.
  destruct (persist_header header (db w)) as [r db']. reflexivity.
Qed.

Lemma chaindb_persist_header_outcome header w :
  fst (chaindb_persist_header header w) = fst (persist_header header (db w)).
Proof.
  unfold Database.chaindb_persist_header.
  destruct (persist_header header (db w)) as [r db']. reflexivity.
Qed.

(** With no canonical head, the run is one [persist_header] call. *)
Lemma initialize_database_empty chain_config w e :
  get_canonical_head (db w) = Raise e ->
  isinstance e "CanonicalHeadNotFound" = true ->
  initialize_database chain_config w =
    chaindb_persist_header
      (if (network_id chain_config =? ROPSTEN_NETWORK_ID)%Z then ROPSTEN_GENESIS_HEADER
       else if (network_id chain_config =? MAINNET_NETWORK_ID)%Z then MAINNET_GENESIS_HEADER
       else genesis_header chain_config) w.
Proof.
  intros Hread Hnone. unfold Database.initialize_database. rewrite Hread, Hnone.
  destruct (network_id chain_config =? ROPSTEN_NETWORK_ID)%Z; [reflexivity|].
  destruct (network_id chain_config =? MAINNET_NETWORK_ID)%Z; reflexivity.
Qed.

(** C1: on a database with no canonical head, [initialize_database] makes
    exactly one [persist_header] call, handing it the mainnet header for
    the mainnet id, the ropsten header for the ropsten id, and otherwise
    the config's own genesis header; on a database that has a canonical
    head it returns without calling [persist_header] or changing
    anything. *)
Theorem initialize_database_persists_genesis_once chain_config w :
  MAINNET_NETWORK_ID <> ROPSTEN_NETWORK_ID ->
  (forall e,
     get_canonical_head (db w) = Raise e ->
     isinstance e "CanonicalHeadNotFound" = true ->
     exists header,
       initialize_database chain_config w = chaindb_persist_header header w
       /\ persisted (snd (initialize_database chain_config w))
          = (persisted w ++ [header])%list
       /\ (network_id chain_config = MAINNET_NETWORK_ID ->
           header = MAINNET_GENESIS_HEADER)
       /\ (network_id chain_config = ROPSTEN_NETWORK_ID ->
           header = ROPSTEN_GENESIS_HEADER)
       /\ (network_id chain_config <> MAINNET_NETWORK_ID ->
           network_id chain_config <> ROPSTEN_NETWORK_ID ->
           header = genesis_header chain_config))
  /\ (forall head,
        get_canonical_head (db w) = Return head ->
        initialize_database chain_config w = (Return tt, w)).
Proof.
  intros Hids. split.
  - intros e Hread Hnone.
    rewrite (initialize_database_empty chain_config w e Hread Hnone).
    eexists. split; [reflexivity|]. split; [apply chaindb_persist_header_log|].
    destruct (Z.eqb_spec (network_id chain_config) ROPSTEN_NETWORK_ID) as [Hr|Hr];
      [|destruct (Z.eqb_spec (network_id chain_config) MAINNET_NETWORK_ID) as [Hm|Hm]].
    + repeat split; intros; congruence.
    + repeat split; intros; congruence.
    + repeat split; intros; congruence.
  - intros head Hread. unfold Database.initialize_database. rewrite Hread. reflexivity.
Qed.

(** C2: [is_database_initialized] answers [True] when the read succeeds,
    [False] exactly when the read raises CanonicalHeadNotFound, and lets
    every other exception of the read through unchanged; it never raises
    CanonicalHeadNotFound.  In [initialize_database] a read that raises
    CanonicalHeadNotFound is answered by the [persist_header] call, whose
    outcome is the outcome of the run: a CanonicalHeadNotFound that leaves
    [initialize_database] was raised by [persist_header] itself. *)
Theorem is_database_initialized_outcomes chaindb :
  (forall head,
     get_canonical_head chaindb = Return head ->
     is_database_initialized chaindb = Return true)
  /\ (is_database_initialized chaindb = Return false <->
      exists e, get_canonical_head chaindb = Raise e
                /\ isinstance e "CanonicalHeadNotFound" = true)
  /\ (forall e,
        get_canonical_head chaindb = Raise e ->
        isinstance e "CanonicalHeadNotFound" = false ->
        is_database_initialized chaindb = Raise e)
  /\ (forall e,
        is_database_initialized chaindb = Raise e ->
        isinstance e "CanonicalHeadNotFound" = false)
  /\ (forall chain_config w e,
        db w = chaindb ->
        get_canonical_head chaindb = Raise e ->
        isinstance e "CanonicalHeadNotFound" = true ->
        exists header,
          initialize_database chain_config w = chaindb_persist_header header w)
  /\ (forall chain_config w e,
        db w = chaindb ->
        fst (initialize_database chain_config w) = Raise e ->
        isinstance e "CanonicalHeadNotFound" = true ->
        exists header, fst (persist_header header chaindb) = Raise e).
Proof.
  unfold Database.is_database_initialized.
  split; [|split; [|split; [|split; [|split]]]].
  - intros head ->. reflexivity.
  - split.
    + destruct (get_canonical_head chaindb) as [head|e]; [discriminate|].
      destruct (isinstance e "CanonicalHeadNotFound") eqn:He; [|discriminate].
      intros _. exists e. split; [reflexivity | exact He].
    + intros (e & -> & ->). reflexivity.
  - intros e -> ->. reflexivity.
  - intros e. destruct (get_canonical_head chaindb) as [head|e0]; [discriminate|].
    destruct (isinstance e0 "CanonicalHeadNotFound") eqn:He; [discriminate|].
    intros H. injection H as <-. exact He.
  - intros chain_config w e <- Hread Hnone. eexists.
    apply (initialize_database_empty chain_config w e Hread Hnone).
  - intros chain_config w e <- Hrun Hnone.
    destruct (get_canonical_head (db w)) as [head|e0] eqn:Hread.
    + unfold Database.initialize_database in Hrun. rewrite Hread in Hrun.
      discriminate.
    + destruct (isinstance e0 "CanonicalHeadNotFound") eqn:He.
      * rewrite (initialize_database_empty chain_config w e0 Hread He) in Hrun.
        rewrite chaindb_persist_header_outcome in Hrun. eexists. exact Hrun.
      * unfold Database.initialize_database in Hrun. rewrite Hread, He in Hrun.
        cbn in Hrun. injection Hrun as <-. congruence.
Qed.

End ChainDB.

(** *** A small chain database *)

Inductive SimpleDB : Type :=
| Empty
| Head (header : BlockHeader)
| Corrupt.

Definition no_canonical_head : PyException :=
  new_exception CanonicalHeadNotFound ["No canonical head set for this chain"].
Definition corrupt_read : PyException :=
  new_exception KeyError ["v1:canonical_head_hash"].

Definition simple_get_canonical_head (d : SimpleDB) : Result BlockHeader :=
  match d with
  | Empty => Raise no_canonical_head
  | Head h => Return h
  | Corrupt => Raise corrupt_read
  end.

Definition simple_persist_header (h : BlockHeader) (d : SimpleDB)
  : Result unit * SimpleDB :=
  match d with
  | Empty => (Return tt, Head h)
  | other => (Return tt, other)
  end.

Definition header_of (tag : Z) : BlockHeader :=
  {| difficulty := VInt tag; extra_data := VBytes []; gas_limit := VInt 5000;
     gas_used := VInt 0; bloom := VInt 0; mix_hash := VBytes [];
     nonce := VBytes []; block_number := VInt 0; parent_hash := VBytes [];
     receipt_root := VBytes []; uncles_hash := VBytes []; state_root := VBytes [];
     timestamp := VInt 0; transaction_root := VBytes [] |}.

Definition mainnet_header : BlockHeader := header_of 17179869184.
Definition ropsten_header : BlockHeader := header_of 1048576.
Definition private_config : ChainConfig :=
  {| network_id := 1337; genesis_header := header_of 1024 |}.
Definition mainnet_config : ChainConfig :=
  {| network_id := 1; genesis_header := header_of 1024 |}.

Lemma initialize_database_persists_genesis_once_witness :
  exists header,
    initialize_database SimpleDB simple_get_canonical_head simple_persist_header
      1 3 mainnet_header ropsten_header mainnet_config (mkWorld Empty [])
    = chaindb_persist_header SimpleDB simple_persist_header header (mkWorld Empty [])
    /\ persisted (snd (initialize_database SimpleDB simple_get_canonical_head
                         simple_persist_header 1 3 mainnet_header ropsten_header
                         mainnet_config (mkWorld Empty [])))
       = ([] ++ [header])%list
    /\ (network_id mainnet_config = 1%Z -> header = mainnet_header)
    /\ (network_id mainnet_config = 3%Z -> header = ropsten_header)
    /\ (network_id mainnet_config <> 1%Z -> network_id mainnet_config <> 3%Z ->
        header = genesis_header mainnet_config).
Proof.
  apply (proj1 (initialize_database_persists_genesis_once SimpleDB
                  simple_get_canonical_head simple_persist_header
                  1 3 mainnet_header ropsten_header mainnet_config (mkWorld Empty [])
                  ltac:(lia)) no_canonical_head); reflexivity.
Defined.

Lemma is_database_initialized_outcomes_witness :
  is_database_initialized SimpleDB simple_get_canonical_head Corrupt = Raise corrupt_read.
Proof.
  apply (proj1 (proj2 (proj2 (is_database_initialized_outcomes SimpleDB
                  simple_get_canonical_head simple_persist_header
                  1 3 mainnet_header ropsten_header Corrupt))));
    reflexivity.
Defined.

End DatabaseProofs.

(** ** ExceptionForwarder *)

Module ForwarderProofs.

Import Forwarder.

Lemma str_RemoteTraceback text : str (RemoteTraceback text) = Return text.
Proof. reflexivity. Qed.

(** [str] only reads the class, [args] and the instance [__dict__]. *)
Lemma str_ext e1 e2 :
  exc_class e1 = exc_class e2 -> exc_args e1 = exc_args e2 ->
  exc_dict e1 = exc_dict e2 -> str e1 = str e2.
Proof.
  intros Hc Ha Hd. unfold str, getattr_dict, BaseException_str.
  rewrite Hc, Ha, Hd. reflexivity.
Qed.

(** *** Restoring the shipped state *)

Definition lookup_dict (d : list (string * string)) (name : string) : option string :=
  snd <$> List.find (fun kv => String.eqb (fst kv) name) d.

Lemma lookup_setattr_eq d key value :
  lookup_dict (setattr_dict d key value) key = Some value.
Proof.
  induction d as [|[k v] d IH]; cbn.
  - rewrite String.eqb_refl. reflexivity.
  - destruct (String.eqb k key) eqn:Hk; cbn; rewrite Hk; [reflexivity | exact IH].
Qed.

Lemma lookup_setattr_ne d key value name :
  key <> name ->
  lookup_dict (setattr_dict d key value) name = lookup_dict d name.
Proof.
  intros Hne. induction d as [|[k v] d IH]; cbn.
  - apply String.eqb_neq in Hne. rewrite Hne. reflexivity.
  - destruct (String.eqb k key) eqn:Hk; cbn.
    + apply String.eqb_eq in Hk. subst k.
      apply String.eqb_neq in Hne. rewrite Hne. unfold lookup_dict in IH.
      cbn. rewrite <- IH. clear IH.
      induction d as [|[k' v'] d IHd]; cbn.
      * rewrite Hne. reflexivity.
      * destruct (String.eqb k' key) eqn:Hk'; cbn.
        -- apply String.eqb_eq in Hk'. subst k'. rewrite Hne. reflexivity.
        -- destruct (String.eqb k' name); [reflexivity | exact IHd].
    + destruct (String.eqb k name); [reflexivity | exact IH].
Qed.

Definition restore (state d : list (string * string)) : list (string * string) :=
  fold_left (fun d kv => setattr_dict d (fst kv) (snd kv)) state d.

Lemma restore_cons key value state d :
  restore ((key, value) :: state) d = restore state (setattr_dict d key value).
Proof. reflexivity. Qed.

Lemma lookup_restore_other state : forall d name,
  ~ In name (map fst state) -> lookup_dict (restore state d) name = lookup_dict d name.
Proof.
  induction state as [|[k v] state IH]; intros d name Hnot; [reflexivity|].
  rewrite restore_cons. cbn in Hnot. rewrite IH by tauto.
  apply lookup_setattr_ne. tauto.
Qed.

(** Every shipped entry is found on the restored object, whatever the
    constructor had set. *)
Lemma lookup_restore state : forall d key value,
  List.NoDup (map fst state) -> In (key, value) state ->
  lookup_dict (restore state d) key = Some value.
Proof.
  induction state as [|[k v] state IH]; intros d key value Hnodup Hin; [destruct Hin|].
  cbn in Hnodup. apply List.NoDup_cons_iff in Hnodup as [Hfresh Hnodup].
  rewrite restore_cons. destruct Hin as [Heq|Hin].
  - injection Heq as -> ->.
    rewrite lookup_restore_other by exact Hfresh. apply lookup_setattr_eq.
  - apply IH; assumption.
Qed.

Lemma setattr_dict_fresh d key value :
  ~ In key (map fst d) -> setattr_dict d key value = (d ++ [(key, value)])%list.
Proof.
  induction d as [|[k v] d IH]; intros Hfresh; [reflexivity|].
  cbn in *. destruct (String.eqb_spec k key) as [->|Hne]; [tauto|].
  rewrite IH by tauto. reflexivity.
Qed.

Lemma restore_fresh state : forall d,
  List.NoDup (map fst state) ->
  (forall key, In key (map fst state) -> ~ In key (map fst d)) ->
  restore state d = (d ++ state)%list.
Proof.
  induction state as [|[k v] state IH]; intros d Hnodup Hfresh.
  - cbn. rewrite app_nil_r. reflexivity.
  - cbn in Hnodup. apply List.NoDup_cons_iff in Hnodup as [Hk Hnodup].
    rewrite restore_cons.
    rewrite setattr_dict_fresh by (apply Hfresh; left; reflexivity).
    rewrite IH.
    + rewrite <- app_assoc. reflexivity.
    + exact Hnodup.
    + intros key Hin. rewrite map_app, in_app_iff. cbn.
      intros [Hd|[<-|[]]]; [|tauto].
      apply (Hfresh key); [right; exact Hin | exact Hd].
Qed.

(** *** The sample classes *)

(** [class Payload(Exception)] whose [__init__(self, message, serial)]
    passes [message] on and keeps [serial] as an attribute;
    [class Prefix(Exception)] whose [__init__(self, msg)] passes on
    ["prefix: " + msg]; every other class has no [__init__] of its own. *)
Definition Payload : PyClass := mkClass "Payload" Exception_bases.
Definition Prefix : PyClass := mkClass "Prefix" Exception_bases.
Definition KeyboardInterrupt : PyClass := mkClass "KeyboardInterrupt" ["BaseException"].

Definition missing_serial : PyException :=
  new_exception TypeError
    ["__init__() missing 1 required positional argument: 'serial'"].

Definition sample_construct (c : PyClass) (args : list string) : Result PyException :=
  if String.eqb (cls_name c) "Payload" then
    match args with
    | [message; serial] =>
        Return {| exc_class := c; exc_args := [message];
                  exc_dict := [("serial", serial)];
                  exc_cause := None; exc_context := None;
                  exc_suppress_context := false |}
    | [_] => Raise missing_serial
    | _ => Raise (new_exception TypeError ["__init__() takes 3 positional arguments"])
    end
  else if String.eqb (cls_name c) "Prefix" then
    match args with
    | [msg] => Return (new_exception c ["prefix: " ++ msg])
    | _ => Raise (new_exception TypeError ["__init__() takes 2 positional arguments"])
    end
  else BaseException_construct c args.

(** [Payload("boom", "7")] and [Prefix("x")], as their constructors leave
    them. *)
Definition payload_exception : PyException :=
  {| exc_class := Payload; exc_args := ["boom"]; exc_dict := [("serial", "7")];
     exc_cause := None; exc_context := None; exc_suppress_context := false |}.
Definition prefix_exception : PyException := new_exception Prefix ["prefix: x"].



Section Recorder.

Variable Value : Type.
Variable State : Type.
Variable format_exception : PyClass -> PyException -> Traceback -> list string.
Variable object_names : list string.

Abbreviation init := (ChainedExceptionWithTraceback__init__ format_exception).
Abbreviation record_traceback_on_error :=
  (record_traceback_on_error Value State format_exception).
Abbreviation getattr__ := (TracebackRecorder__getattr__ Value State format_exception).
Abbreviation getattribute :=
  (TracebackRecorder_getattribute Value State format_exception object_names).

Lemma init_fields e traceback :
  exc (init e traceback) = e
  /\ tb (init e traceback)
     = newline ++ triple_quote ++ newline
       ++ String.concat "" (format_exception (exc_class e) e traceback)
       ++ triple_quote.
Proof. split; reflexivity. Qed.

Lemma record_traceback_on_error_Returned (attr : Attr Value State) args s v s' :
  call Value State attr args s = (Returned Value v, s') ->
  record_traceback_on_error attr args s = (WReturned Value v, s').
Proof.
  intros H. unfold Forwarder.record_traceback_on_error. rewrite H. reflexivity.
Qed.

Lemma record_traceback_on_error_Exception (attr : Attr Value State) args s e traceback s' :
  call Value State attr args s = (Raised Value e traceback, s') ->
  isinstance e "Exception" = true ->
  record_traceback_on_error attr args s
  = (WRaisedChained Value (init e traceback), s').
Proof.
  intros H He. unfold Forwarder.record_traceback_on_error. rewrite H, He. reflexivity.
Qed.

Lemma record_traceback_on_error_BaseException
    (attr : Attr Value State) args s e traceback s' :
  call Value State attr args s = (Raised Value e traceback, s') ->
  isinstance e "Exception" = false ->
  record_traceback_on_error attr args s = (WRaised Value e traceback, s').
Proof.
  intros H He. unfold Forwarder.record_traceback_on_error. rewrite H, He. reflexivity.
Qed.


(** C4 (amended): for a name that normal lookup does not find on the
    adapter itself, reading it through the adapter hands back unchanged
    every attribute of the resource that is not a bound method, callable
    or not; a bound method comes back wrapped: the wrapper returns what
    the method returns, turns an [Exception] raised by it into the
    container holding that exception and its formatted traceback, and
    lets any other exception through. *)
Theorem TracebackRecorder_getattr_forwarding (self : TracebackRecorder Value State)
    name attr :
  obj Value State self !! name = Some attr ->
  existsb (String.eqb name) (adapter_names object_names) = false ->
  (inspect_ismethod Value State attr = false ->
     getattribute self name
     = Delegated Value State (Return (Unwrapped Value State attr)))
  /\ (inspect_ismethod Value State attr = true ->
      exists wrapper,
        getattribute self name
        = Delegated Value State (Return (Wrapped Value State wrapper))
        /\ forall args s,
             (forall v s',
                call Value State attr args s = (Returned Value v, s') ->
                wrapper args s = (WReturned Value v, s'))
             /\ (forall e traceback s',
                   call Value State attr args s = (Raised Value e traceback, s') ->
                   isinstance e "Exception" = true ->
                   wrapper args s
                   = (WRaisedChained Value
                        {| tb := newline ++ triple_quote ++ newline
                                 ++ String.concat ""
                                      (format_exception (exc_class e) e traceback)
                                 ++ triple_quote;
                           exc := e |}, s'))
             /\ (forall e traceback s',
                   call Value State attr args s = (Raised Value e traceback, s') ->
                   isinstance e "Exception" = false ->
                   wrapper args s = (WRaised Value e traceback, s'))).
Proof.
  intros Hattr Hown.
  assert (Hobj : String.eqb name "obj" = false).
  { unfold adapter_names in Hown. cbn [existsb] in Hown.
    apply orb_false_iff in Hown as [Hobj _]. exact Hobj. }
  unfold Forwarder.TracebackRecorder_getattribute,
    Forwarder.TracebackRecorder__getattr__, Forwarder.getattr.
  rewrite Hobj, Hown, Hattr. cbn.
  split; intros Hm; rewrite Hm; cbn; [reflexivity|].
  eexists. split; [reflexivity|]. intros args s. split; [|split].
  - apply record_traceback_on_error_Returned.
  - apply record_traceback_on_error_Exception.
  - apply record_traceback_on_error_BaseException.
Qed.

End Recorder.

(** *** A small resource *)

Definition line (text : string) : string := text ++ newline.
Definition frame_line (frame : string) : string := line ("  " ++ frame).
Definition summary_line (c : PyClass) (e : PyException) : string :=
  line (cls_name c ++ ": " ++ BaseException_str e).

Definition sample_format_exception (c : PyClass) (e : PyException) (t : Traceback)
  : list string :=
  line "Traceback (most recent call last):"
  :: app (map frame_line t) [summary_line c e].

Definition sample_object_names : list string :=
  ["__class__"; "__dict__"; "__doc__"; "__module__"; "__repr__"; "__str__";
   "__eq__"; "__hash__"; "__reduce__"; "__reduce_ex__"; "__setattr__";
   "__getattribute__"; "__weakref__"].

Definition head_not_found : PyException :=
  new_exception CanonicalHeadNotFound ["No canonical head set for this chain"].
Definition interrupt : PyException := new_exception KeyboardInterrupt [].

Definition sample_traceback : Traceback := ["in wrapper"; "in get_canonical_head"].

Definition failing : Method Z unit :=
  fun _ s => (Raised Z head_not_found sample_traceback, s).
Definition failing_payload : Method Z unit :=
  fun _ s => (Raised Z payload_exception sample_traceback, s).
Definition interrupted : Method Z unit :=
  fun _ s => (Raised Z interrupt sample_traceback, s).

(** A resource with bound methods, with a plain function stored as an
    attribute, and with data attributes, one of them named [obj]. *)
Definition sample_resource : TracebackRecorder Z unit :=
  {| obj := {[ "get_canonical_head" := BoundMethod Z unit failing;
               "import_block" := BoundMethod Z unit interrupted;
               "lookup" := OtherCallable Z unit failing;
               "size" := Data Z unit 3%Z;
               "obj" := Data Z unit 5%Z ]} |}.

Abbreviation sample_getattribute :=
  (TracebackRecorder_getattribute Z unit sample_format_exception sample_object_names).

(** C4, as stated, fails: a callable attribute that is not a bound method
    is handed back as it is, and calling it raises the original
    exception, not a container; the name [obj] reads the adapter's own
    attribute, not the resource's; and a bound method's exception that is
    no [Exception] leaves the wrapper as it is. *)
Lemma TracebackRecorder_getattr_not_every_callable :
  (obj Z unit sample_resource !! "lookup" = Some (OtherCallable Z unit failing)
   /\ is_callable Z unit (OtherCallable Z unit failing) = true
   /\ sample_getattribute sample_resource "lookup"
      = Delegated Z unit (Return (Unwrapped Z unit (OtherCallable Z unit failing)))
   /\ call Z unit (OtherCallable Z unit failing) [] tt
      = (Raised Z head_not_found sample_traceback, tt))
  /\ (obj Z unit sample_resource !! "obj" = Some (Data Z unit 5%Z)
      /\ sample_getattribute sample_resource "obj"
         = OwnObj Z unit (obj Z unit sample_resource))
  /\ (obj Z unit sample_resource !! "import_block"
      = Some (BoundMethod Z unit interrupted)
      /\ Forwarder.record_traceback_on_error Z unit sample_format_exception
           (BoundMethod Z unit interrupted) [] tt
         = (WRaised Z interrupt sample_traceback, tt)).
Proof. repeat split; vm_compute; reflexivity. Qed.

Lemma TracebackRecorder_getattr_forwarding_witness :
  sample_getattribute sample_resource "size"
  = Delegated Z unit (Return (Unwrapped Z unit (Data Z unit 3%Z)))
  /\ exists wrapper,
       sample_getattribute sample_resource "get_canonical_head"
       = Delegated Z unit (Return (Wrapped Z unit wrapper))
       /\ wrapper [] tt
          = (WRaisedChained Z
               (ChainedExceptionWithTraceback__init__ sample_format_exception
                  head_not_found sample_traceback), tt).
Proof.
  split.
  - apply (proj1 (TracebackRecorder_getattr_forwarding Z unit sample_format_exception
                    sample_object_names sample_resource "size" (Data Z unit 3%Z)
                    ltac:(vm_compute; reflexivity) ltac:(vm_compute; reflexivity))).
    reflexivity.
  - destruct (proj2 (TracebackRecorder_getattr_forwarding Z unit sample_format_exception
                       sample_object_names sample_resource "get_canonical_head"
                       (BoundMethod Z unit failing)
                       ltac:(vm_compute; reflexivity) ltac:(vm_compute; reflexivity))
                eq_refl) as (wrapper & Hread & Hcalls).
    exists wrapper. split; [exact Hread|].
    apply (proj1 (proj2 (Hcalls [] tt)) head_not_found sample_traceback tt);
      reflexivity.
Defined.



End ForwarderProofs.

(** * Further properties *)

(** ** GenesisSpec, continued *)

Module GenesisMore.

Import Genesis GenesisProofs.

Lemma not_in_keys_spec key (genesis : gmap string PyValue) :
  not_in_keys key genesis = false <-> is_Some (genesis !! key).
Proof.
  unfold not_in_keys. rewrite bool_decide_eq_false. split.
  - intros H. destruct (genesis !! key) as [v|]; [eexists; reflexivity | congruence].
  - intros [v ->]. discriminate.
Qed.

(** [is_valid_genesis_header] returns exactly for the configs that hold
    all five required keys, whatever their values and whatever else the
    config holds; its only return value is [True]. *)
Theorem is_valid_genesis_header_accepts_iff (genesis : gmap string PyValue) :
  (is_valid_genesis_header genesis = Return true <->
   Forall (fun key => is_Some (genesis !! key))
     ["chainId"; "difficulty"; "gasLimit"; "nonce"; "extraData"])
  /\ is_valid_genesis_header genesis <> Return false.
Proof.
  unfold is_valid_genesis_header. split.
  - rewrite !Forall_cons, Forall_nil, <- !not_in_keys_spec.
    destruct (not_in_keys "chainId" genesis),
             (not_in_keys "difficulty" genesis),
             (not_in_keys "gasLimit" genesis),
             (not_in_keys "nonce" genesis),
             (not_in_keys "extraData" genesis);
      split; intros H; try discriminate H; try reflexivity;
      try (repeat split; reflexivity);
      destruct H as (H1 & H2 & H3 & H4 & H5 & _); discriminate.
  - destruct (not_in_keys "chainId" genesis),
             (not_in_keys "difficulty" genesis),
             (not_in_keys "gasLimit" genesis),
             (not_in_keys "nonce" genesis),
             (not_in_keys "extraData" genesis); discriminate.
Qed.

(** [get_genesis_header] raises on every input: KeyError for the first of
    [difficulty], [extraData], [gasLimit] that the config lacks, and
    NameError for the unbound [constants] once those three are there.  The
    [nonce] and [chainId] entries and [decode_hex] are never reached. *)
Theorem get_genesis_header_outcome decode_hex z b u (genesis : gmap string PyValue) :
  get_genesis_header decode_hex z b u genesis =
    match List.find (fun key => not_in_keys key genesis)
            ["difficulty"; "extraData"; "gasLimit"] with
    | Some key => Raise (new_exception KeyError [key])
    | None => Raise constants_NameError
    end.
Proof.
  unfold get_genesis_header, getitem, not_in_keys. cbn [List.find].
  destruct (genesis !! "difficulty"); [|reflexivity].
  destruct (genesis !! "extraData"); [|reflexivity].
  destruct (genesis !! "gasLimit"); reflexivity.
Qed.

(** A config that [is_valid_genesis_header] accepts still has no header:
    [get_genesis_header] raises NameError on it. *)
Theorem validated_config_raises_NameError decode_hex z b u
    (genesis : gmap string PyValue) :
  is_valid_genesis_header genesis = Return true ->
  get_genesis_header decode_hex z b u genesis = Raise constants_NameError.
Proof.
  unfold is_valid_genesis_header. intros Hvalid.
  destruct (not_in_keys "chainId" genesis); [discriminate|].
  destruct (not_in_keys "difficulty" genesis) eqn:Hd; [discriminate|].
  destruct (not_in_keys "gasLimit" genesis) eqn:Hg; [discriminate|].
  destruct (not_in_keys "nonce" genesis); [discriminate|].
  destruct (not_in_keys "extraData" genesis) eqn:He; [discriminate|].
  apply get_genesis_header_NameError; apply not_in_keys_spec; assumption.
Qed.

Lemma validated_config_raises_NameError_witness :
  get_genesis_header (fun _ => Return []) [] [] [] genesis_example
  = Raise constants_NameError.
Proof.
  apply (validated_config_raises_NameError (fun _ => Return []) [] [] []
           genesis_example).
  vm_compute. reflexivity.
Defined.

End GenesisMore.

(** ** NodeBootstrap, continued *)

Module DataDirMore.

Import Genesis DataDir DataDirProofs.

(** Every path that exists in [fs] exists in [fs']. *)
Definition keeps (fs fs' : gmap Path Node) : Prop :=
  forall q, exists_ fs q = true -> exists_ fs' q = true.

(** Every directory of [fs] is a directory of [fs']. *)
Definition keeps_dirs (fs fs' : gmap Path Node) : Prop :=
  forall q, node_at fs q = Some Dir -> node_at fs' q = Some Dir.

Lemma exists_node_at fs q : exists_ fs q = true <-> is_Some (node_at fs q).
Proof.
  unfold exists_. destruct (node_at fs q) as [n|]; split; intros H.
  - eexists; reflexivity.
  - reflexivity.
  - discriminate.
  - destruct H as [n H]. discriminate.
Qed.

Lemma preserves_node_at fs fs' q n :
  preserves fs fs' -> node_at fs q = Some n -> node_at fs' q = Some n.
Proof.
  intros Hp. destruct q as [|c q]; [intros H; exact H|]. cbn. apply Hp.
Qed.

Lemma preserves_keeps fs fs' : preserves fs fs' -> keeps fs fs'.
Proof.
  intros Hp q. rewrite !exists_node_at. intros [n Hn].
  exists n. eapply preserves_node_at; eassumption.
Qed.

Lemma preserves_keeps_dirs fs fs' : preserves fs fs' -> keeps_dirs fs fs'.
Proof. intros Hp q. apply preserves_node_at, Hp. Qed.

Lemma keeps_trans fs1 fs2 fs3 : keeps fs1 fs2 -> keeps fs2 fs3 -> keeps fs1 fs3.
Proof. intros H12 H23 q H. apply H23, H12, H. Qed.

Lemma keeps_insert (fs : gmap Path Node) p n : keeps fs (<[p := n]> fs).
Proof.
  intros q. rewrite !exists_node_at. destruct q as [|c q]; [intros H; exact H|].
  cbn. destruct (decide (p = c :: q)) as [->|Hne].
  - rewrite lookup_insert_eq. intros _. eexists; reflexivity.
  - rewrite lookup_insert_ne by exact Hne. intros H; exact H.
Qed.

(** What a successful [write_bytes] does to the file system. *)
Lemma write_bytes_Return p data fs fs' :
  write_bytes p data fs = Return fs' ->
  fs' = <[p := File data]> fs /\ node_at fs p <> Some Dir.
Proof.
  unfold write_bytes. destruct (node_at fs p) as [[|content]|].
  - discriminate.
  - intros H. injection H as <-. split; [reflexivity | discriminate].
  - destruct (check_parent p fs); cbn; [|discriminate].
    intros H. injection H as <-. split; [reflexivity | discriminate].
Qed.

Lemma mkdir_from_creates rest : forall prefix fs fs',
  mkdir_from prefix rest fs = Return fs' ->
  rest <> [] ->
  fs' !! (prefix ++ rest)%list = Some Dir.
Proof.
  induction rest as [|c rest IH]; intros prefix fs fs' H Hne; [congruence|].
  cbn in H. replace (prefix ++ c :: rest)%list with ((prefix ++ [c]) ++ rest)%list
    by (rewrite <- app_assoc; reflexivity).
  destruct rest as [|c' rest].
  - rewrite app_nil_r.
    destruct (fs !! (prefix ++ [c])%list) as [[|content]|] eqn:Hhere;
      cbn in H; try discriminate; injection H as <-.
    + exact Hhere.
    + apply lookup_insert_eq.
  - destruct (fs !! (prefix ++ [c])%list) as [[|content]|] eqn:Hhere;
      try discriminate; (eapply IH; [exact H | discriminate]).
Qed.

Lemma mkdir_parents_creates p fs fs' :
  mkdir_parents p fs = Return fs' -> node_at fs' p = Some Dir.
Proof.
  destruct p as [|c p]; [reflexivity|]. intros H.
  apply (mkdir_from_creates (c :: p) [] fs fs' H). discriminate.
Qed.

Lemma touch_creates p fs fs' :
  touch p fs = Return fs' -> exists_ fs' p = true.
Proof.
  unfold touch. destruct (node_at fs p) as [n|] eqn:Hp.
  - intros H. injection H as <-. apply exists_node_at. eexists; exact Hp.
  - destruct (check_parent p fs); cbn; [|discriminate].
    intros H. injection H as <-. apply exists_node_at.
    destruct p as [|c p]; [discriminate|]. cbn. rewrite lookup_insert_eq.
    eexists; reflexivity.
Qed.

Lemma on_fs_Return op w w' :
  on_fs op w = (Return tt, w') ->
  exists fs', op (fs w) = Return fs'
              /\ w' = {| fs := fs'; keys_drawn := keys_drawn w |}.
Proof.
  unfold on_fs. destruct (op (fs w)) as [fs'|e]; intros H; [|discriminate].
  injection H as <-. exists fs'. split; reflexivity.
Qed.

Section Steps.

Variable is_under_xdg_trinity_root : Path -> bool.
Variable generate_privkey : nat -> bytes.

Abbreviation initialize_data_dir :=
  (initialize_data_dir is_under_xdg_trinity_root generate_privkey).

(** The base directory step (lines 150-159). *)
Definition base_step (chain_config : ChainConfig) : IO unit :=
  fun w =>
    if negb (exists_ (fs w) (data_dir chain_config))
       && is_under_xdg_trinity_root (data_dir chain_config)
    then on_fs (mkdir_parents (data_dir chain_config)) w
    else if negb (exists_ (fs w) (data_dir chain_config))
    then raise_MissingPath "The base chain directory provided does not exist: `"
           (data_dir chain_config) w
    else io_ret tt w.

(** The log file step (lines 161-174). *)
Definition log_step (chain_config : ChainConfig) : IO unit :=
  fun w =>
    if negb (exists_ (fs w) (logdir_path chain_config))
       && is_under_xdg_trinity_root (logdir_path chain_config)
    then (run on_fs (mkdir_parents (logdir_path chain_config)) ;
          on_fs (touch (logfile_path chain_config))) w
    else if negb (exists_ (fs w) (logdir_path chain_config))
    then raise_MissingPath "The base logging directory provided does not exist: `"
           (logdir_path chain_config) w
    else io_ret tt w.

(** The chain data-dir step (line 177). *)
Definition database_step (chain_config : ChainConfig) : IO unit :=
  on_fs (mkdir_parents (database_dir chain_config)).

Lemma initialize_data_dir_unfold chain_config w :
  initialize_data_dir chain_config w =
  io_bind (base_step chain_config) (fun _ =>
    io_bind (log_step chain_config) (fun _ =>
      io_bind (database_step chain_config) (fun _ =>
        nodekey_step generate_privkey chain_config))) w.
Proof. reflexivity. Qed.

Lemma initialize_data_dir_Return chain_config w w' :
  initialize_data_dir chain_config w = (Return tt, w') ->
  exists w1 w2 w3,
    base_step chain_config w = (Return tt, w1)
    /\ log_step chain_config w1 = (Return tt, w2)
    /\ database_step chain_config w2 = (Return tt, w3)
    /\ nodekey_step generate_privkey chain_config w3 = (Return tt, w').
Proof.
  rewrite initialize_data_dir_unfold. intros H.
  apply io_bind_Return in H as ([] & w1 & H1 & H).
  apply io_bind_Return in H as ([] & w2 & H2 & H).
  apply io_bind_Return in H as ([] & w3 & H3 & H).
  exists w1, w2, w3. repeat split; assumption.
Qed.

Lemma base_step_Return chain_config w w1 :
  base_step chain_config w = (Return tt, w1) ->
  exists_ (fs w1) (data_dir chain_config) = true
  /\ preserves (fs w) (fs w1) /\ keys_drawn w1 = keys_drawn w.
Proof.
  unfold base_step.
  destruct (exists_ (fs w) (data_dir chain_config)) eqn:Hexists; cbn.
  - intros H. injection H as <-. split; [exact Hexists|].
    split; [apply preserves_refl | reflexivity].
  - destruct (is_under_xdg_trinity_root (data_dir chain_config)).
    + intros H. apply on_fs_Return in H as (fs' & Hmk & ->). cbn.
      split; [|split; [eapply mkdir_parents_preserves, Hmk | reflexivity]].
      apply exists_node_at. rewrite (mkdir_parents_creates _ _ _ Hmk).
      eexists; reflexivity.
    + unfold raise_MissingPath. destruct (load_global "MissingPath"); discriminate.
Qed.

Lemma log_step_Return chain_config w w1 :
  log_step chain_config w = (Return tt, w1) ->
  exists_ (fs w1) (logdir_path chain_config) = true
  /\ (exists_ (fs w) (logdir_path chain_config) = false ->
      exists_ (fs w1) (logfile_path chain_config) = true)
  /\ preserves (fs w) (fs w1) /\ keys_drawn w1 = keys_drawn w.
Proof.
  unfold log_step.
  destruct (exists_ (fs w) (logdir_path chain_config)) eqn:Hexists; cbn.
  - intros H. injection H as <-. split; [exact Hexists|].
    split; [discriminate|]. split; [apply preserves_refl | reflexivity].
  - destruct (is_under_xdg_trinity_root (logdir_path chain_config)).
    + intros H. apply io_bind_Return in H as ([] & w0 & Hmk & Htouch).
      apply on_fs_Return in Hmk as (fs0 & Hmk & ->).
      apply on_fs_Return in Htouch as (fs1 & Htouch & ->). cbn in *.
      pose proof (touch_preserves _ _ _ Htouch) as Hp1.
      pose proof (mkdir_parents_preserves _ _ _ Hmk) as Hp0.
      split; [|split; [|split]].
      * apply exists_node_at. exists Dir.
        eapply preserves_node_at; [exact Hp1|].
        eapply mkdir_parents_creates, Hmk.
      * intros _. eapply touch_creates, Htouch.
      * eapply preserves_trans; eassumption.
      * reflexivity.
    + unfold raise_MissingPath. destruct (load_global "MissingPath"); discriminate.
Qed.

Lemma database_step_Return chain_config w w1 :
  database_step chain_config w = (Return tt, w1) ->
  node_at (fs w1) (database_dir chain_config) = Some Dir
  /\ preserves (fs w) (fs w1) /\ keys_drawn w1 = keys_drawn w.
Proof.
  unfold database_step. intros H.
  apply on_fs_Return in H as (fs' & Hmk & ->). cbn.
  split; [eapply mkdir_parents_creates, Hmk|].
  split; [eapply mkdir_parents_preserves, Hmk | reflexivity].
Qed.

(** What the nodekey step changes, whatever its outcome: at most the
    entry at the configured [nodekey_path], which is then a file. *)
Lemma nodekey_step_frame chain_config w r w' :
  nodekey_step generate_privkey chain_config w = (r, w') ->
  keeps (fs w) (fs w') /\ keeps_dirs (fs w) (fs w')
  /\ (forall q n, fs w !! q = Some n -> nodekey_path chain_config <> Some q ->
       fs w' !! q = Some n).
Proof.
  assert (Hsame : forall fs0, keeps fs0 fs0 /\ keeps_dirs fs0 fs0
            /\ (forall q n, fs0 !! q = Some n -> nodekey_path chain_config <> Some q ->
                  fs0 !! q = Some n)).
  { intros fs0. split; [intros q H; exact H|]. split; [intros q H; exact H|].
    intros q n H _. exact H. }
  unfold nodekey_step. destruct (nodekey chain_config) as [key|].
  - intros H. injection H as <- <-. apply Hsame.
  - unfold io_bind, ecies_generate_privkey, open_nodekey_file.
    destruct (nodekey_path chain_config) as [p|].
    + unfold on_fs. cbn [fs keys_drawn].
      destruct (write_bytes p _ (fs w)) as [fs'|e] eqn:Hwrite;
        intros H; injection H as <- <-; cbn [fs]; [|apply Hsame].
      apply write_bytes_Return in Hwrite as [-> Hnotdir].
      split; [apply keeps_insert|]. split.
      * intros q Hq. destruct q as [|c q]; [reflexivity|]. cbn in *.
        destruct (decide (p = c :: q)) as [->|Hne].
        -- cbn in Hnotdir. congruence.
        -- rewrite lookup_insert_ne by exact Hne. exact Hq.
      * intros q n Hq Hne. rewrite lookup_insert_ne; [exact Hq | congruence].
    + intros H. injection H as <- <-. apply Hsame.
Qed.

(** A run that returns leaves the base directory and the log directory in
    existence and the chain data-dir a directory. *)
Theorem initialize_data_dir_Return_directories chain_config w w' :
  initialize_data_dir chain_config w = (Return tt, w') ->
  exists_ (fs w') (data_dir chain_config) = true
  /\ exists_ (fs w') (logdir_path chain_config) = true
  /\ node_at (fs w') (database_dir chain_config) = Some Dir.
Proof.
  intros H. apply initialize_data_dir_Return in H as (w1 & w2 & w3 & H1 & H2 & H3 & H4).
  apply base_step_Return in H1 as (Hbase & _ & _).
  apply log_step_Return in H2 as (Hlog & _ & Hp2 & _).
  apply database_step_Return in H3 as (Hdb & Hp3 & _).
  apply nodekey_step_frame in H4 as (Hk4 & Hd4 & _).
  split; [|split].
  - apply Hk4. apply (preserves_keeps _ _ Hp3). apply (preserves_keeps _ _ Hp2).
    exact Hbase.
  - apply Hk4. apply (preserves_keeps _ _ Hp3). exact Hlog.
  - apply Hd4. exact Hdb.
Qed.

(** Whatever the outcome, a run removes nothing and rewrites nothing but
    the nodekey file: every path that existed still exists, and every
    entry other than the one at [nodekey_path] is as it was. *)
Theorem initialize_data_dir_frame chain_config w r w' :
  initialize_data_dir chain_config w = (r, w') ->
  (forall q, exists_ (fs w) q = true -> exists_ (fs w') q = true)
  /\ (forall q n, fs w !! q = Some n -> nodekey_path chain_config <> Some q ->
       fs w' !! q = Some n).
Proof.
  rewrite initialize_data_dir_steps. unfold io_bind.
  destruct (directory_steps is_under_xdg_trinity_root chain_config w)
    as [[[]|e] w1] eqn:Hdirs; intros H.
  - destruct (stable_directory_steps _ _ _ _ _ Hdirs) as [_ Hp].
    apply nodekey_step_frame in H as (Hk & _ & Hf). split.
    + intros q Hq. apply Hk. apply (preserves_keeps _ _ Hp). exact Hq.
    + intros q n Hq Hne. apply Hf; [apply Hp, Hq | exact Hne].
  - injection H as <- <-.
    destruct (stable_directory_steps _ _ _ _ _ Hdirs) as [_ Hp]. split.
    + apply (preserves_keeps _ _ Hp).
    + intros q n Hq _. apply Hp, Hq.
Qed.

(** Creating a directory leaves every longer path alone. *)
Lemma mkdir_from_longer rest : forall prefix fs fs' q,
  mkdir_from prefix rest fs = Return fs' ->
  (length prefix + length rest < length q)%nat ->
  fs' !! q = fs !! q.
Proof.
  induction rest as [|c rest IH]; intros prefix fs fs' q H Hlen; cbn in H.
  - injection H as <-. reflexivity.
  - cbn in Hlen.
    assert (Hq : (prefix ++ [c])%list <> q).
    { intros <-. rewrite length_app in Hlen. cbn in Hlen. lia. }
    assert (Hlen' : (length (prefix ++ [c])%list + length rest < length q)%nat).
    { rewrite length_app. cbn. lia. }
    destruct (fs !! (prefix ++ [c])%list) as [[|content]|]; try discriminate.
    + eapply IH; eassumption.
    + rewrite (IH _ _ _ _ H Hlen'). apply lookup_insert_ne, Hq.
Qed.

Lemma base_step_longer chain_config w r w1 q :
  base_step chain_config w = (r, w1) ->
  (length (data_dir chain_config) < length q)%nat ->
  exists_ (fs w1) q = exists_ (fs w) q.
Proof.
  unfold base_step. intros H Hlen.
  assert (Hsame : forall w0, (r, w1) = (r, w0) -> exists_ (fs w1) q = exists_ (fs w0) q).
  { intros w0 H0. injection H0 as ->. reflexivity. }
  destruct (negb (exists_ (fs w) (data_dir chain_config))
            && is_under_xdg_trinity_root (data_dir chain_config)).
  - unfold on_fs in H.
    destruct (mkdir_parents (data_dir chain_config) (fs w)) as [fs'|e] eqn:Hmk;
      injection H as <- <-; [|reflexivity].
    cbn [fs]. unfold exists_, node_at. destruct q as [|c q]; [reflexivity|].
    pose proof (mkdir_from_longer _ _ _ _ (c :: q) Hmk Hlen) as E.
    unfold Path in *. rewrite E. reflexivity.
  - destruct (negb (exists_ (fs w) (data_dir chain_config))).
    + unfold raise_MissingPath in H. destruct (load_global "MissingPath");
        injection H as <- <-; reflexivity.
    + injection H as <- <-. reflexivity.
Qed.

(** A run that returns leaves the layout initialised in the sense of
    [is_data_dir_initialized], provided the node has its nodekey, the log
    directory is the log file's parent and lies deeper than the base
    directory, and a log directory found on disk has its log file. *)
Theorem initialize_data_dir_establishes_initialized chain_config w w' :
  initialize_data_dir chain_config w = (Return tt, w') ->
  logdir_path chain_config = parent (logfile_path chain_config) ->
  (length (data_dir chain_config) < length (logdir_path chain_config))%nat ->
  nodekey chain_config <> None ->
  (forall p, nodekey_path chain_config = Some p -> exists_ (fs w) p = true) ->
  (exists_ (fs w) (logdir_path chain_config) = true ->
   exists_ (fs w) (logfile_path chain_config) = true) ->
  is_data_dir_initialized chain_config w' = true.
Proof.
  intros H Hparent Hdeeper Hkey Hkeyfile Hlogfile.
  apply initialize_data_dir_Return in H as (w1 & w2 & w3 & H1 & H2 & H3 & H4).
  pose proof (base_step_longer _ _ _ _ _ H1 Hdeeper) as Hlogdir1.
  apply base_step_Return in H1 as (Hbase & Hp1 & _).
  apply log_step_Return in H2 as (Hlog & Htouched & Hp2 & _).
  apply database_step_Return in H3 as (Hdb & Hp3 & _).
  apply nodekey_step_frame in H4 as (Hk4 & Hd4 & _).
  assert (Hfrom1 : forall q, exists_ (fs w1) q = true -> exists_ (fs w') q = true).
  { intros q Hq. apply Hk4, (preserves_keeps _ _ Hp3), (preserves_keeps _ _ Hp2), Hq. }
  assert (Hfrom2 : forall q, exists_ (fs w2) q = true -> exists_ (fs w') q = true).
  { intros q Hq. apply Hk4, (preserves_keeps _ _ Hp3), Hq. }
  unfold is_data_dir_initialized.
  rewrite (Hfrom1 _ Hbase). cbn [negb].
  assert (Hdbx : exists_ (fs w') (database_dir chain_config) = true).
  { apply exists_node_at. rewrite (Hd4 _ Hdb). eexists; reflexivity. }
  rewrite Hdbx. cbn [negb].
  rewrite <- Hparent, (Hfrom2 _ Hlog). cbn [negb].
  assert (Hfile : exists_ (fs w') (logfile_path chain_config) = true).
  { destruct (exists_ (fs w) (logdir_path chain_config)) eqn:Hbefore.
    - apply Hfrom1, (preserves_keeps _ _ Hp1), Hlogfile. reflexivity.
    - apply Hfrom2, Htouched. exact Hlogdir1. }
  rewrite Hfile. cbn [negb].
  destruct (nodekey_path chain_config) as [p|] eqn:Hpath.
  - rewrite (Hfrom1 p (preserves_keeps _ _ Hp1 _ (Hkeyfile p eq_refl))). cbn [negb].
    destruct (nodekey chain_config); [reflexivity | congruence].
  - destruct (nodekey chain_config); [reflexivity | congruence].
Qed.

(** Every existing entry has directories for all its ancestors. *)
Definition well_formed (fs : gmap Path Node) : bool :=
  forallb (fun entry : Path * Node =>
             forallb (fun k => match fs !! take k (fst entry) with
                               | Some Dir => true
                               | _ => false
                               end)
                     (seq 1 (length (fst entry) - 1)))
          (map_to_list fs).

Lemma well_formed_ancestor (fs : gmap Path Node) p n k :
  well_formed fs = true -> fs !! p = Some n ->
  (0 < k < length p)%nat -> fs !! take k p = Some Dir.
Proof.
  unfold well_formed. rewrite forallb_forall. intros Hwf Hp Hk.
  assert (Hin : In (p, n) (map_to_list fs)).
  { apply list_elem_of_In, elem_of_map_to_list, Hp. }
  specialize (Hwf _ Hin). cbn [fst] in Hwf. rewrite forallb_forall in Hwf.
  specialize (Hwf k). rewrite in_seq in Hwf.
  destruct (fs !! take k p) as [[|content]|]; [reflexivity | |];
    (assert (Hf : false = true) by (apply Hwf; lia); discriminate).
Qed.

Lemma mkdir_from_noop rest : forall prefix (fs : gmap Path Node),
  (forall k, (0 < k <= length rest)%nat ->
             fs !! (prefix ++ take k rest)%list = Some Dir) ->
  mkdir_from prefix rest fs = Return fs.
Proof.
  induction rest as [|c rest IH]; intros prefix fs H; [reflexivity|].
  cbn. pose proof (H 1%nat ltac:(cbn; lia)) as H1. cbn in H1.
  rewrite take_0 in H1. rewrite H1. apply IH. intros k Hk.
  rewrite <- app_assoc. cbn. apply (H (S k)). cbn. lia.
Qed.

Lemma mkdir_parents_noop (fs : gmap Path Node) p :
  well_formed fs = true -> node_at fs p = Some Dir ->
  mkdir_parents p fs = Return fs.
Proof.
  intros Hwf Hp. apply mkdir_from_noop. intros k Hk. cbn.
  destruct p as [|c p]; [cbn in Hk; lia|]. cbn [node_at] in Hp.
  destruct (decide (k = length (c :: p))) as [->|Hne].
  - rewrite firstn_all. exact Hp.
  - eapply well_formed_ancestor; [exact Hwf | exact Hp | lia].
Qed.

(** On a well-formed file system, a layout that [is_data_dir_initialized]
    accepts, whose log directory is the log file's parent and whose chain
    data-dir is a directory, is left exactly as it is: nothing is created
    and no key is drawn. *)
Theorem initialize_data_dir_initialized_noop chain_config w :
  well_formed (fs w) = true ->
  is_data_dir_initialized chain_config w = true ->
  logdir_path chain_config = parent (logfile_path chain_config) ->
  node_at (fs w) (database_dir chain_config) = Some Dir ->
  initialize_data_dir chain_config w = (Return tt, w).
Proof.
  intros Hwf Hinit Hparent Hdb. unfold is_data_dir_initialized in Hinit.
  destruct (exists_ (fs w) (data_dir chain_config)) eqn:Hbase; [|discriminate].
  destruct (exists_ (fs w) (database_dir chain_config)); [|discriminate].
  rewrite <- Hparent in Hinit.
  destruct (exists_ (fs w) (logdir_path chain_config)) eqn:Hlog; [|discriminate].
  destruct (exists_ (fs w) (logfile_path chain_config)); [|discriminate].
  cbn [negb] in Hinit.
  assert (Hkey : exists key, nodekey chain_config = Some key).
  { destruct (nodekey chain_config) as [key|].
    - exists key. reflexivity.
    - destruct (nodekey_path chain_config) as [p|];
        [destruct (negb (exists_ (fs w) p))|]; discriminate. }
  destruct Hkey as [key Hkey].
  rewrite initialize_data_dir_unfold.
  unfold io_bind, base_step, log_step, database_step, nodekey_step, on_fs, io_ret.
  rewrite Hbase. cbn [negb andb]. rewrite Hlog. cbn [negb andb].
  rewrite (mkdir_parents_noop _ _ Hwf Hdb). cbn [negb andb]. rewrite Hkey.
  destruct w; reflexivity.
Qed.

Definition nodekey_path_TypeError : PyException :=
  new_exception TypeError ["expected str, bytes or os.PathLike object, not NoneType"].

(** A layout with neither a nodekey nor a nodekey path never gets through:
    either a directory step fails and no key is drawn, or exactly one key
    is drawn and then lost to the TypeError of opening no path. *)
Theorem initialize_data_dir_no_key_no_path chain_config w :
  nodekey chain_config = None ->
  nodekey_path chain_config = None ->
  exists e,
    fst (initialize_data_dir chain_config w) = Raise e
    /\ (keys_drawn (snd (initialize_data_dir chain_config w)) = keys_drawn w
        \/ (keys_drawn (snd (initialize_data_dir chain_config w)) = S (keys_drawn w)
            /\ e = nodekey_path_TypeError)).
Proof.
  intros Hkey Hpath. rewrite initialize_data_dir_steps. unfold io_bind.
  destruct (directory_steps is_under_xdg_trinity_root chain_config w)
    as [[[]|e] w1] eqn:Hdirs;
    destruct (stable_directory_steps _ _ _ _ _ Hdirs) as [Hdrawn _].
  - unfold nodekey_step, io_bind, ecies_generate_privkey, open_nodekey_file, io_raise.
    rewrite Hkey, Hpath. cbn. eexists. split; [reflexivity|].
    right. split; [congruence | reflexivity].
  - exists e. cbn. split; [reflexivity | left; exact Hdrawn].
Qed.

(** A missing log directory outside the managed root, with the base
    directory in place: the [raise MissingPath] of the log file step
    fails with NameError as well, and nothing has been touched. *)
Theorem initialize_data_dir_missing_unmanaged_logdir chain_config w :
  exists_ (fs w) (data_dir chain_config) = true ->
  exists_ (fs w) (logdir_path chain_config) = false ->
  is_under_xdg_trinity_root (logdir_path chain_config) = false ->
  initialize_data_dir chain_config w = (Raise MissingPath_NameError, w).
Proof.
  intros Hbase Hlog Hunmanaged. rewrite initialize_data_dir_unfold.
  unfold io_bind, base_step, log_step, io_ret.
  rewrite Hbase. cbn [negb andb]. rewrite Hlog, Hunmanaged. reflexivity.
Qed.

End Steps.

(** *** Concrete layouts, continued *)

(** A managed layout with an explicitly defined nodekey, nothing on disk. *)
Definition managed_explicit_layout : ChainConfig :=
  layout managed_base None (Some explicit_key).

(** A managed layout with neither a nodekey nor a nodekey path. *)
Definition keyless_layout : ChainConfig := layout managed_base None None.

(** Only the unmanaged base directory exists. *)
Definition base_only_world : World :=
  {| fs := {[ ["srv"] := Dir; unmanaged_base := Dir ]}; keys_drawn := 0 |}.

Abbreviation run_example chain_config w :=
  (initialize_data_dir under_xdg_trinity_root example_privkey chain_config w).

Lemma initialize_data_dir_Return_directories_witness :
  exists_ (fs (snd (run_example fresh_layout empty_world))) (data_dir fresh_layout) = true
  /\ exists_ (fs (snd (run_example fresh_layout empty_world)))
       (logdir_path fresh_layout) = true
  /\ node_at (fs (snd (run_example fresh_layout empty_world)))
       (database_dir fresh_layout) = Some Dir.
Proof.
  apply (initialize_data_dir_Return_directories under_xdg_trinity_root example_privkey
           fresh_layout empty_world).
  vm_compute. reflexivity.
Defined.

Lemma initialize_data_dir_frame_witness :
  (forall q, exists_ (fs laid_out_world) q = true ->
             exists_ (fs (snd (run_example fresh_layout laid_out_world))) q = true)
  /\ (forall q n, fs laid_out_world !! q = Some n ->
                  nodekey_path fresh_layout <> Some q ->
                  fs (snd (run_example fresh_layout laid_out_world)) !! q = Some n).
Proof.
  apply (initialize_data_dir_frame under_xdg_trinity_root example_privkey
           fresh_layout laid_out_world
           (fst (run_example fresh_layout laid_out_world))).
  apply surjective_pairing.
Defined.

Lemma initialize_data_dir_establishes_initialized_witness :
  is_data_dir_initialized managed_explicit_layout
    (snd (run_example managed_explicit_layout empty_world)) = true.
Proof.
  apply (initialize_data_dir_establishes_initialized under_xdg_trinity_root
           example_privkey managed_explicit_layout empty_world).
  - vm_compute. reflexivity.
  - reflexivity.
  - vm_compute. lia.
  - discriminate.
  - intros p Hp. discriminate Hp.
  - intros Hlog. vm_compute in Hlog. discriminate Hlog.
Defined.

Lemma initialize_data_dir_initialized_noop_witness :
  run_example explicit_key_layout laid_out_world = (Return tt, laid_out_world).
Proof.
  apply (initialize_data_dir_initialized_noop under_xdg_trinity_root example_privkey
           explicit_key_layout laid_out_world); vm_compute; reflexivity.
Defined.

Lemma initialize_data_dir_no_key_no_path_witness :
  exists e,
    fst (run_example keyless_layout empty_world) = Raise e
    /\ (keys_drawn (snd (run_example keyless_layout empty_world))
        = keys_drawn empty_world
        \/ (keys_drawn (snd (run_example keyless_layout empty_world))
            = S (keys_drawn empty_world)
            /\ e = nodekey_path_TypeError)).
Proof.
  apply (initialize_data_dir_no_key_no_path under_xdg_trinity_root example_privkey
           keyless_layout empty_world); reflexivity.
Defined.

Lemma initialize_data_dir_missing_unmanaged_logdir_witness :
  run_example unmanaged_layout base_only_world
  = (Raise MissingPath_NameError, base_only_world).
Proof.
  apply (initialize_data_dir_missing_unmanaged_logdir under_xdg_trinity_root
           example_privkey unmanaged_layout base_only_world);
    vm_compute; reflexivity.
Defined.

End DataDirMore.

(** ** NodeBootstrap: the nodekey across runs *)

Module NodekeyRuns.

Import Genesis DataDir DataDirProofs DataDirMore.

(** Where a node's key comes from: it is explicitly defined, or it lives
    in a file (source lines 127-129: a config without a nodekey path has
    an explicitly defined nodekey). *)
Inductive NodekeySource : Type :=
| ExplicitKey (key : bytes)
| KeyFile (path : Path).

Record Layout : Type := mkLayout {
  base_dir : Path;
  chain_dir : Path;
  log_dir : Path;
  log_file : Path;
  key_source : NodekeySource
}.

(** Modelled from the spec: the [nodekey] attribute of [ChainConfig]
    ([trinity.config] is not among the sources).  Section 3 of the spec:
    nodekeyBytes is present only after bootstrap and matches the file at
    nodekeyPath if one was configured; section 4.2: a loaded nodekey
    value.  So the attribute yields the explicitly defined key, or the
    bytes of the file at the nodekey path when that file exists, and
    [None] otherwise. *)
Definition nodekey_at (source : NodekeySource) (fs : gmap Path Node) : option bytes :=
  match source with
  | ExplicitKey key => Some key
  | KeyFile path =>
      match node_at fs path with
      | Some (File content) => Some content
      | _ => None
      end
  end.

(** The attributes [initialize_data_dir] reads, on a given file system. *)
Definition chain_config_at (l : Layout) (fs : gmap Path Node) : ChainConfig :=
  {| data_dir := base_dir l;
     database_dir := chain_dir l;
     logdir_path := log_dir l;
     logfile_path := log_file l;
     nodekey_path := match key_source l with
                     | ExplicitKey _ => None
                     | KeyFile path => Some path
                     end;
     nodekey := nodekey_at (key_source l) fs |}.

Section Ensure.

Variable is_under_xdg_trinity_root : Path -> bool.
Variable generate_privkey : nat -> bytes.

Abbreviation initialize_data_dir :=
  (initialize_data_dir is_under_xdg_trinity_root generate_privkey).
Abbreviation directory_steps := (directory_steps is_under_xdg_trinity_root).

(** A run of [initialize_data_dir] on a layout: [chain_config.nodekey] is
    read at line 180, once the directory steps are through, and has the
    value the attribute yields on the file system as it is then. *)
Definition ensure (l : Layout) : IO unit :=
  fun w =>
    match directory_steps (chain_config_at l (fs w)) w with
    | (Return _, w3) => initialize_data_dir (chain_config_at l (fs w3)) w
    | (Raise e, w1) => (Raise e, w1)
    end.

Lemma directory_steps_nodekey_irrelevant l fs1 fs2 w :
  directory_steps (chain_config_at l fs1) w = directory_steps (chain_config_at l fs2) w.
Proof. reflexivity. Qed.

Lemma ensure_steps l w :
  ensure l w =
  io_bind (directory_steps (chain_config_at l (fs w)))
    (fun _ w3 => nodekey_step generate_privkey (chain_config_at l (fs w3)) w3) w.
Proof.
  unfold ensure, io_bind.
  destruct (directory_steps (chain_config_at l (fs w)) w) as [[[]|e] w3] eqn:Hdirs;
    [|reflexivity].
  rewrite initialize_data_dir_steps. unfold io_bind.
  rewrite (directory_steps_nodekey_irrelevant l (fs w3) (fs w)), Hdirs. reflexivity.
Qed.

Lemma mkdir_from_all_dirs rest : forall prefix fs fs' k,
  mkdir_from prefix rest fs = Return fs' ->
  (0 < k <= length rest)%nat ->
  fs' !! (prefix ++ take k rest)%list = Some Dir.
Proof.
  induction rest as [|c rest IH]; intros prefix fs fs' k H Hk; [cbn in Hk; lia|].
  cbn in H. destruct k as [|k]; [lia|]. cbn [take].
  replace (prefix ++ c :: take k rest)%list with ((prefix ++ [c]) ++ take k rest)%list
    by (rewrite <- app_assoc; reflexivity).
  destruct k as [|k].
  - rewrite take_0, app_nil_r.
    destruct (fs !! (prefix ++ [c])%list) as [[|content]|] eqn:Hhere;
      try discriminate.
    + eapply mkdir_from_preserves; [exact H | exact Hhere].
    + eapply mkdir_from_preserves; [exact H | apply lookup_insert_eq].
  - cbn in Hk.
    destruct (fs !! (prefix ++ [c])%list) as [[|content]|]; try discriminate;
      (eapply IH; [exact H | lia]).
Qed.

Lemma directory_steps_Return chain_config w w3 :
  directory_steps chain_config w = (Return tt, w3) ->
  exists_ (fs w3) (data_dir chain_config) = true
  /\ exists_ (fs w3) (logdir_path chain_config) = true
  /\ (forall k, (0 < k <= length (database_dir chain_config))%nat ->
        fs w3 !! take k (database_dir chain_config) = Some Dir)
  /\ preserves (fs w) (fs w3) /\ keys_drawn w3 = keys_drawn w.
Proof.
  intros H.
  destruct (stable_directory_steps _ _ _ _ _ H) as [Hdrawn Hpres].
  change (io_bind (base_step is_under_xdg_trinity_root chain_config) (fun _ =>
            io_bind (log_step is_under_xdg_trinity_root chain_config) (fun _ =>
              database_step chain_config)) w = (Return tt, w3)) in H.
  apply io_bind_Return in H as ([] & wa & Ha & H).
  apply io_bind_Return in H as ([] & wb & Hb & Hc).
  apply base_step_Return in Ha as (Hbase & _ & _).
  apply log_step_Return in Hb as (Hlog & _ & Hpb & _).
  unfold database_step in Hc. apply on_fs_Return in Hc as (fs3 & Hmk & ->).
  cbn [fs].
  pose proof (mkdir_parents_preserves _ _ _ Hmk) as Hpc.
  split; [|split; [|split; [|split]]].
  - apply (preserves_keeps _ _ Hpc), (preserves_keeps _ _ Hpb), Hbase.
  - apply (preserves_keeps _ _ Hpc), Hlog.
  - intros k Hk. apply (mkdir_from_all_dirs _ [] _ _ k Hmk Hk).
  - exact Hpres.
  - exact Hdrawn.
Qed.

Lemma directory_steps_noop chain_config w :
  exists_ (fs w) (data_dir chain_config) = true ->
  exists_ (fs w) (logdir_path chain_config) = true ->
  (forall k, (0 < k <= length (database_dir chain_config))%nat ->
     fs w !! take k (database_dir chain_config) = Some Dir) ->
  directory_steps chain_config w = (Return tt, w).
Proof.
  intros Hbase Hlog Hdirs. unfold DataDirProofs.directory_steps, io_bind, io_ret, on_fs.
  rewrite Hbase. cbn [negb andb]. rewrite Hlog. cbn [negb andb].
  unfold mkdir_parents. rewrite (mkdir_from_noop _ [] (fs w) Hdirs).
  destruct w; reflexivity.
Qed.

(** What a nodekey step that returns leaves behind. *)
Lemma nodekey_step_Return l w3 w1 :
  nodekey_step generate_privkey (chain_config_at l (fs w3)) w3 = (Return tt, w1) ->
  nodekey_at (key_source l) (fs w1) <> None.
Proof.
  unfold nodekey_step. cbn [nodekey chain_config_at].
  destruct (nodekey_at (key_source l) (fs w3)) as [key|] eqn:Hkey.
  - intros H. injection H as <-. congruence.
  - intros H. apply io_bind_Return in H as (key & w2 & Hgen & Hopen).
    unfold ecies_generate_privkey in Hgen. injection Hgen as <- <-.
    unfold open_nodekey_file in Hopen. cbn [nodekey_path chain_config_at] in Hopen.
    destruct (key_source l) as [explicit|path] eqn:Hsource; [discriminate Hkey|].
    apply on_fs_Return in Hopen as (fs' & Hwrite & ->). cbn [fs keys_drawn] in *.
    apply write_bytes_Return in Hwrite as [-> Hnotdir]. cbn [nodekey_at].
    destruct path as [|c path]; [cbn in Hnotdir; congruence|].
    cbn [node_at]. rewrite lookup_insert_eq. discriminate.
Qed.


End Ensure.

(** *** Concrete layouts *)

Definition managed_node (source : NodekeySource) : Layout :=
  {| base_dir := managed_base;
     chain_dir := (managed_base ++ ["chain"])%list;
     log_dir := (managed_base ++ ["logs"])%list;
     log_file := (managed_base ++ ["logs"; "trinity.log"])%list;
     key_source := source |}.

(** A fresh managed node that keeps its key in a file. *)
Definition nodekey_file : Path := (managed_base ++ ["nodekey"])%list.
Definition fresh_node : Layout := managed_node (KeyFile nodekey_file).

(** A managed node whose nodekey path lies in a directory that does not
    exist. *)
Definition stray_nodekey_file : Path := ["etc"; "trinity"; "nodekey"].
Definition stray_node : Layout := managed_node (KeyFile stray_nodekey_file).

(** A node with an explicitly defined nodekey, on the laid-out file
    system. *)
Definition explicit_node : Layout :=
  {| base_dir := unmanaged_base;
     chain_dir := (unmanaged_base ++ ["chain"])%list;
     log_dir := (unmanaged_base ++ ["logs"])%list;
     log_file := (unmanaged_base ++ ["logs"; "trinity.log"])%list;
     key_source := ExplicitKey explicit_key |}.

Abbreviation ensure_example l w := (ensure under_xdg_trinity_root example_privkey l w).



End NodekeyRuns.

(** ** ChainDatabaseInitializer and the manager's bootstrap, continued *)

Module DatabaseMore.

Import Genesis Database Manager DatabaseProofs.

Lemma app_singleton_neq {A : Type} (l : list A) (x : A) : (l ++ [x])%list <> l.
Proof.
  intros H. apply (f_equal (@length A)) in H. rewrite length_app in H. cbn in H. lia.
Qed.

Section ChainDB.

Variable DB : Type.
Variable get_canonical_head : DB -> Result BlockHeader.
Variable persist_header : BlockHeader -> DB -> Result unit * DB.
Variables MAINNET_NETWORK_ID ROPSTEN_NETWORK_ID : Z.
Variables MAINNET_GENESIS_HEADER ROPSTEN_GENESIS_HEADER : BlockHeader.

Abbreviation initialize_database :=
  (initialize_database DB get_canonical_head persist_header
     MAINNET_NETWORK_ID ROPSTEN_NETWORK_ID
     MAINNET_GENESIS_HEADER ROPSTEN_GENESIS_HEADER).
Abbreviation ensure_database :=
  (ensure_database DB get_canonical_head persist_header
     MAINNET_NETWORK_ID ROPSTEN_NETWORK_ID
     MAINNET_GENESIS_HEADER ROPSTEN_GENESIS_HEADER).
Abbreviation get_chaindb_manager_chain :=
  (get_chaindb_manager_chain DB get_canonical_head persist_header
     MAINNET_NETWORK_ID ROPSTEN_NETWORK_ID
     MAINNET_GENESIS_HEADER ROPSTEN_GENESIS_HEADER).
Abbreviation chain_class_of :=
  (chain_class_of MAINNET_NETWORK_ID ROPSTEN_NETWORK_ID).

Lemma initialize_database_initialized chain_config w head :
  get_canonical_head (db w) = Return head ->
  initialize_database chain_config w = (Return tt, w).
Proof.
  intros Hread. unfold Database.initialize_database. rewrite Hread. reflexivity.
Qed.

Lemma initialize_database_other chain_config w e :
  get_canonical_head (db w) = Raise e ->
  isinstance e "CanonicalHeadNotFound" = false ->
  initialize_database chain_config w = (Raise e, w).
Proof.
  intros Hread He. unfold Database.initialize_database. rewrite Hread, He. reflexivity.
Qed.

(** In every run the persist log grows by at most one header, which is
    one of the three genesis headers, and it grows exactly when the read
    of the canonical head raised CanonicalHeadNotFound. *)
Theorem initialize_database_log chain_config w :
  (persisted (snd (initialize_database chain_config w)) = persisted w
   \/ exists header,
        persisted (snd (initialize_database chain_config w))
        = (persisted w ++ [header])%list
        /\ (header = ROPSTEN_GENESIS_HEADER \/ header = MAINNET_GENESIS_HEADER
            \/ header = genesis_header chain_config))
  /\ (persisted (snd (initialize_database chain_config w)) <> persisted w <->
      exists e, get_canonical_head (db w) = Raise e
                /\ isinstance e "CanonicalHeadNotFound" = true).
Proof.
  destruct (get_canonical_head (db w)) as [head|e] eqn:Hread.
  - rewrite (initialize_database_initialized _ _ _ Hread). cbn. split.
    + left. reflexivity.
    + split; [congruence | intros (e & He & _); discriminate].
  - destruct (isinstance e "CanonicalHeadNotFound") eqn:He.
    + rewrite (initialize_database_empty DB get_canonical_head persist_header
                 MAINNET_NETWORK_ID ROPSTEN_NETWORK_ID MAINNET_GENESIS_HEADER
                 ROPSTEN_GENESIS_HEADER chain_config w e Hread He).
      rewrite chaindb_persist_header_log. split.
      * right. eexists. split; [reflexivity|].
        destruct (network_id chain_config =? ROPSTEN_NETWORK_ID)%Z; [left; reflexivity|].
        destruct (network_id chain_config =? MAINNET_NETWORK_ID)%Z;
          [right; left | right; right]; reflexivity.
      * split; [|intros _; apply app_singleton_neq].
        intros _. exists e. split; [reflexivity | exact He].
    + rewrite (initialize_database_other _ _ _ Hread He). cbn. split.
      * left. reflexivity.
      * split; [congruence|]. intros (e' & He' & Hnone).
        injection He' as <-. congruence.
Qed.

(** A read of the canonical head that fails with anything but
    CanonicalHeadNotFound ends the run with that very exception: nothing
    is persisted and the database is as it was. *)
Theorem initialize_database_propagates_read_failure chain_config w e :
  get_canonical_head (db w) = Raise e ->
  isinstance e "CanonicalHeadNotFound" = false ->
  initialize_database chain_config w = (Raise e, w).
Proof. apply initialize_database_other. Qed.

(** When a successful [persist_header] leaves the database with a
    canonical head, a run that returned is never repeated: running again,
    under any config, returns without persisting or changing anything. *)
Theorem initialize_database_idempotent chain_config chain_config' w w1 :
  (forall header d d',
     persist_header header d = (Return tt, d') ->
     exists head, get_canonical_head d' = Return head) ->
  initialize_database chain_config w = (Return tt, w1) ->
  initialize_database chain_config' w1 = (Return tt, w1).
Proof.
  intros Hcontract Hrun.
  destruct (get_canonical_head (db w)) as [head|e] eqn:Hread.
  - rewrite (initialize_database_initialized _ _ _ Hread) in Hrun.
    injection Hrun as <-. eapply initialize_database_initialized, Hread.
  - destruct (isinstance e "CanonicalHeadNotFound") eqn:He.
    + rewrite (initialize_database_empty DB get_canonical_head persist_header
                 MAINNET_NETWORK_ID ROPSTEN_NETWORK_ID MAINNET_GENESIS_HEADER
                 ROPSTEN_GENESIS_HEADER chain_config w e Hread He) in Hrun.
      unfold Database.chaindb_persist_header in Hrun.
      destruct (persist_header _ (db w)) as [r d'] eqn:Hpersist.
      injection Hrun as -> <-.
      destruct (Hcontract _ _ _ Hpersist) as [head Hhead].
      eapply initialize_database_initialized. exact Hhead.
    + rewrite (initialize_database_other _ _ _ Hread He) in Hrun. discriminate.
Qed.

Lemma persist_then_class header w (class c : ChainClass) w' :
  match Database.chaindb_persist_header DB persist_header header w with
  | (Raise e, w1) => (Raise e, w1)
  | (Return _, w1) => (Return class, w1)
  end = (Return c, w') ->
  c = class /\ persisted w' = (persisted w ++ [header])%list.
Proof.
  pose proof (chaindb_persist_header_log DB persist_header header w) as Hlog.
  revert Hlog.
  destruct (Database.chaindb_persist_header DB persist_header header w)
    as [[[]|e1] w1]; cbn; intros Hlog H; [|discriminate H].
  injection H as <- <-. split; [reflexivity | exact Hlog].
Qed.

Lemma ensure_database_eq_initialize_database_aux chain_config w :
  ensure_database chain_config w = initialize_database chain_config w.
Proof.
  unfold Manager.ensure_database, Database.is_database_initialized,
    Database.initialize_database.
  destruct (get_canonical_head (db w)) as [head|e]; [reflexivity|].
  destruct (isinstance e "CanonicalHeadNotFound"); reflexivity.
Qed.

(** The guard in [get_chaindb_manager] adds nothing: checking
    [is_database_initialized] first and then calling [initialize_database]
    has the outcome and the effect of calling [initialize_database]. *)
Theorem ensure_database_eq_initialize_database chain_config w :
  ensure_database chain_config w = initialize_database chain_config w.
Proof. apply ensure_database_eq_initialize_database_aux. Qed.

(** On a database without a canonical head (and with distinct mainnet and
    ropsten ids), the chain class [get_chaindb_manager] settles on and the
    genesis header it has persisted belong to the same network. *)
Theorem get_chaindb_manager_chain_matches_genesis chain_config w e c w' :
  MAINNET_NETWORK_ID <> ROPSTEN_NETWORK_ID ->
  get_canonical_head (db w) = Raise e ->
  isinstance e "CanonicalHeadNotFound" = true ->
  get_chaindb_manager_chain chain_config w = (Return c, w') ->
  persisted w' =
    (persisted w ++ [match c with
                     | MainnetChain => MAINNET_GENESIS_HEADER
                     | RopstenChain => ROPSTEN_GENESIS_HEADER
                     | PrivateChain => genesis_header chain_config
                     end])%list.
Proof.
  intros Hids Hread He. unfold Manager.get_chaindb_manager_chain.
  rewrite ensure_database_eq_initialize_database_aux.
  rewrite (initialize_database_empty DB get_canonical_head persist_header
             MAINNET_NETWORK_ID ROPSTEN_NETWORK_ID MAINNET_GENESIS_HEADER
             ROPSTEN_GENESIS_HEADER chain_config w e Hread He).
  unfold Manager.chain_class_of.
  destruct (Z.eqb_spec (network_id chain_config) ROPSTEN_NETWORK_ID) as [Hr|Hr];
    [|destruct (Z.eqb_spec (network_id chain_config) MAINNET_NETWORK_ID) as [Hm|Hm]].
  - destruct (Z.eqb_spec (network_id chain_config) MAINNET_NETWORK_ID) as [Hm|Hm];
      [congruence|].
    intros H. apply persist_then_class in H as [-> ->]. reflexivity.
  - intros H. apply persist_then_class in H as [-> ->]. reflexivity.
  - intros H. apply persist_then_class in H as [-> ->]. reflexivity.
Qed.

End ChainDB.

(** *** The small chain database, continued *)

(** A [persist_header] that refuses a corrupt database and otherwise
    leaves a canonical head behind. *)
Definition careful_persist_header (h : BlockHeader) (d : SimpleDB)
  : Result unit * SimpleDB :=
  match d with
  | Empty => (Return tt, Head h)
  | Head h0 => (Return tt, Head h0)
  | Corrupt => (Raise corrupt_read, Corrupt)
  end.

Lemma initialize_database_propagates_read_failure_witness :
  Database.initialize_database SimpleDB simple_get_canonical_head simple_persist_header
    1 3 mainnet_header ropsten_header private_config (mkWorld Corrupt [])
  = (Raise corrupt_read, mkWorld Corrupt []).
Proof.
  apply (initialize_database_propagates_read_failure SimpleDB simple_get_canonical_head
           simple_persist_header 1 3 mainnet_header ropsten_header
           private_config (mkWorld Corrupt []) corrupt_read); reflexivity.
Defined.

Lemma initialize_database_idempotent_witness :
  Database.initialize_database SimpleDB simple_get_canonical_head careful_persist_header
    1 3 mainnet_header ropsten_header mainnet_config
    (mkWorld (Head (genesis_header private_config)) [genesis_header private_config])
  = (Return tt,
     mkWorld (Head (genesis_header private_config)) [genesis_header private_config]).
Proof.
  apply (initialize_database_idempotent SimpleDB simple_get_canonical_head
           careful_persist_header 1 3 mainnet_header ropsten_header
           private_config mainnet_config (mkWorld Empty [])).
  - intros header d d' H. destruct d; cbn in H.
    + injection H as <-. eexists; reflexivity.
    + injection H as <-. eexists; reflexivity.
    + discriminate H.
  - reflexivity.
Defined.

Lemma get_chaindb_manager_chain_matches_genesis_witness :
  persisted (mkWorld (Head ropsten_header) [ropsten_header])
  = ([] ++ [ropsten_header])%list.
Proof.
  apply (get_chaindb_manager_chain_matches_genesis SimpleDB simple_get_canonical_head
           simple_persist_header 1 3 mainnet_header ropsten_header
           {| network_id := 3; genesis_header := header_of 1024 |}
           (mkWorld Empty []) no_canonical_head RopstenChain
           (mkWorld (Head ropsten_header) [ropsten_header])).
  - lia.
  - reflexivity.
  - reflexivity.
  - reflexivity.
Defined.

End DatabaseMore.

(** ** ExceptionForwarder, continued *)

Module ForwarderMore.

Import Forwarder ForwarderProofs.

(** A second [rebuild_exc] replaces the marker of the first: only the last
    remote trace stays attached. *)
Theorem rebuild_exc_last_wins e text1 text2 :
  rebuild_exc (rebuild_exc e text1) text2 = rebuild_exc e text2.
Proof. reflexivity. Qed.

Section Recorder.

Variable Value : Type.
Variable State : Type.
Variable format_exception : PyClass -> PyException -> Traceback -> list string.

Abbreviation init := (ChainedExceptionWithTraceback__init__ format_exception).
Abbreviation record_traceback_on_error :=
  (record_traceback_on_error Value State format_exception).
Abbreviation getattr__ := (TracebackRecorder__getattr__ Value State format_exception).

(** The wrapper changes the resource's state exactly as the wrapped call
    does, and what leaves it is always accounted for by that call: a
    returned value is the call's, an exception let through is the call's
    and is no [Exception], and a container embeds the [Exception] the call
    raised together with its formatted traceback. *)
Theorem record_traceback_on_error_outcomes (attr : Attr Value State) args s :
  snd (record_traceback_on_error attr args s) = snd (call Value State attr args s)
  /\ match fst (record_traceback_on_error attr args s) with
     | WReturned _ v => fst (call Value State attr args s) = Returned Value v
     | WRaised _ e traceback =>
         fst (call Value State attr args s) = Raised Value e traceback
         /\ isinstance e "Exception" = false
     | WRaisedChained _ c =>
         exists traceback,
           fst (call Value State attr args s) = Raised Value (exc c) traceback
           /\ isinstance (exc c) "Exception" = true
           /\ c = init (exc c) traceback
     end.
Proof.
  unfold Forwarder.record_traceback_on_error.
  destruct (call Value State attr args s) as [[v|e traceback] s']; cbn.
  - split; reflexivity.
  - destruct (isinstance e "Exception") eqn:He; cbn.
    + split; [reflexivity|]. exists traceback. repeat split. exact He.
    + split; [reflexivity|]. split; [reflexivity | exact He].
Qed.

End Recorder.

End ForwarderMore.
